(** * WaitHuman client: the request-poll protocol of [src/WaitHuman.ts]

    A shallow embedding of the [WaitHuman] class.  The class talks to an HTTP
    client, reads a clock and arms a timer; here those effects are explicit:
    a [World] carries the clock and the trace of the calls issued so far, an
    [Env] says what the remote side and the host answer, and the methods are
    functions in a state monad over [World].  The [while (true)] loop of
    [pollForAnswer] is iterated by a fuel argument. *)

From Stdlib Require Import ZArith QArith Qround Lia Lqa Bool List String Ascii.
From Stdlib Require Import DecimalString.
Import ListNotations.
Local Open Scope string_scope.

(** ** JavaScript values the code inspects *)

(** A property that may be missing: [undefined], [null] or a value.  The
    code tells them apart only through [??], [!= null], [?.] and truthiness. *)
Inductive Nullable (A : Type) : Type :=
| undefined : Nullable A
| null : Nullable A
| value (a : A) : Nullable A.
Arguments undefined {A}.
Arguments null {A}.
Arguments value {A} a.

(** [x ?? d] *)
Definition nullish {A : Type} (x : Nullable A) (d : A) : A :=
  match x with
  | value a => a
  | _ => d
  end.

(** [x ?? null] *)
Definition or_null {A : Type} (x : Nullable A) : Nullable A :=
  match x with
  | value a => value a
  | _ => null
  end.

(** Neither [undefined] nor [null]. *)
Definition present {A : Type} (x : Nullable A) : Prop :=
  exists a, x = value a.

(** A [number].  Finite values are rationals (the rounding of IEEE doubles is
    not modelled); the three non-finite values are kept because a comparison
    treats them specially. *)
Inductive JsNumber : Type :=
| Num (q : Q)
| Infinity
| NegInfinity
| NaN.

(** [e > t] for a finite left operand [e]. *)
Definition Qgtb (x y : Q) : bool := negb (Qle_bool x y).

Definition gt_number (e : Q) (t : JsNumber) : bool :=
  match t with
  | Num q => Qgtb e q
  | Infinity => false
  | NegInfinity => true
  | NaN => false
  end.

(** [String.prototype.endsWith] *)
Definition endsWith (s search : string) : bool :=
  let n := String.length s in
  let k := String.length search in
  (k <=? n)%nat && String.eqb (substring (n - k) k s) search.

(** [String.prototype.slice(start, end)]: negative positions count from the
    end, both are clamped to the string. *)
Definition slice (s : string) (start stop : Z) : string :=
  let len := Z.of_nat (String.length s) in
  let from := if (start <? 0)%Z then Z.max (len + start) 0 else Z.min start len in
  let to := if (stop <? 0)%Z then Z.max (len + stop) 0 else Z.min stop len in
  substring (Z.to_nat from) (Z.to_nat (Z.max (to - from) 0)) s.

(** Truthiness of a string-valued property: a missing one and the empty
    string are falsy.  [truthy x] is the string when it is truthy. *)
Definition truthy (x : Nullable string) : option string :=
  match x with
  | value s => if String.eqb s EmptyString then None else Some s
  | _ => None
  end.

(** ** Data model ([src/types.ts] and the schema it re-exports) *)

Inductive QuestionMethod : Type :=
| push.

(** Modelled from the spec: the generated schema ([./api/schema]) is not among
    the sources.  Section 3 of the specification gives the two answer formats,
    the two answer contents and the shape of a question; the code below
    constructs and reads exactly these fields. *)
Inductive AnswerFormat : Type :=
| format_free_text
| format_options (options : list string) (multiple : bool).

Record ConfirmationQuestion : Type := {
  method : QuestionMethod;
  subject : string;
  body : Nullable string;
  answer_format : AnswerFormat
}.

Inductive AnswerContent : Type :=
| content_free_text (text : string)
| content_options (selected_indexes : list Z).

(** [content.type] *)
Definition content_type (c : AnswerContent) : string :=
  match c with
  | content_free_text _ => "free_text"
  | content_options _ => "options"
  end.

Record Answer : Type := {
  answer_content : AnswerContent
}.

(** [ConfirmationAnswerWithDate]: the code reads [answer.answer_content]; the
    timestamp is carried along untouched. *)
Record ConfirmationAnswer : Type := {
  answer : Answer;
  date : string
}.

Record WaitHumanConfig : Type := {
  apiKey : Nullable string;
  endpoint : Nullable string
}.

Inductive Reason : Type :=
| timeout
| network_error
| invalid_response
| create_failed
| poll_failed
| unexpected_answer_type.

(** The reasons are string literals in the source. *)
Definition reason_string (r : Reason) : string :=
  match r with
  | timeout => "timeout"
  | network_error => "network_error"
  | invalid_response => "invalid_response"
  | create_failed => "create_failed"
  | poll_failed => "poll_failed"
  | unexpected_answer_type => "unexpected_answer_type"
  end.

Record WaitHumanError : Type := {
  reason : Reason;
  description : option string
}.

Inductive Result (T : Type) : Type :=
| Data (data : T)
| Err (error : WaitHumanError).
Arguments Data {T} data.
Arguments Err {T} error.

Record AskOptions : Type := {
  timeoutSeconds : Nullable JsNumber
}.

(** A call that either returns or throws [new Error(message)]. *)
Inductive Completion (T : Type) : Type :=
| Returned (v : T)
| Thrown (message : string).
Arguments Returned {T} v.
Arguments Thrown {T} message.

(** ** The constructor *)

Definition DEFAULT_BACKEND_ENDPOINT : string := "https://api.waithuman.com".

(** [createApiClient(baseUrl)] ([src/api/client.ts]): the client keeps the
    base URL it is created with. *)
Record ApiClient : Type := {
  baseUrl : string
}.

Definition createApiClient (baseUrl : string) : ApiClient :=
  {| baseUrl := baseUrl |}.

(** The private fields of an instance. *)
Record WaitHuman : Type := {
  this_apiKey : string;
  this_client : ApiClient
}.

Definition constructor (config : WaitHumanConfig) : Completion WaitHuman :=
  match truthy (apiKey config) with
  | None => Thrown "apiKey is mandatory"
  | Some key =>
      let endpoint := nullish (endpoint config) DEFAULT_BACKEND_ENDPOINT in
      let endpoint :=
        if endsWith endpoint "/" then slice endpoint 0 (-1) else endpoint in
      Returned {| this_apiKey := key;
                  this_client := createApiClient endpoint |}
  end.

(** The endpoint the constructor hands to [createApiClient], given the one it
    starts from (lines 30-32). *)
Definition strip_slash (e : string) : string :=
  if endsWith e "/" then slice e 0 (-1) else e.

(** ** The world the methods run in *)

(** The [Response] of a call: the status text the code reads, and [ok]
    (status in the 200 range), which the code never reads and the statements
    about non-success responses name. *)
Record Response : Type := {
  statusText : string;
  response_ok : bool
}.

(** What [await this.client.POST(...)] / [GET(...)] gives back, as the code
    sees it: the promise rejects (a transport exception), or it resolves to
    [{ data, error, response }].  [data] and [error] are [None] when the
    property is falsy; the code tests nothing else of [error]. *)
Record Fetched (D : Type) : Type := {
  data : option D;
  error : option string;
  response : Response
}.
Arguments data {D} _.
Arguments error {D} _.
Arguments response {D} _.

Inductive Fetch (D : Type) : Type :=
| Rejects
| Resolves (f : Fetched D).
Arguments Rejects {D}.
Arguments Resolves {D} f.

(** Modelled from the spec: the bodies of the two endpoints (section 6),
    whose types come from the schema that is not among the sources.  The
    schema makes [confirmation_request_id] a string; the code reads the
    property without a test (line 185), so a body without it is kept
    expressible: the property is then [undefined]. *)
Record CreateBody : Type := {
  confirmation_request_id : Nullable string
}.

Record GetBody : Type := {
  maybe_answer : option ConfirmationAnswer
}.

(** The calls the instance issues, in the order of the source. *)
Inductive Event : Type :=
| EvPOST (client : ApiClient) (path : string) (authorization : string)
    (question : ConfirmationQuestion)
| EvGET (client : ApiClient) (path : string)
    (confirmation_id : Nullable string)
    (long_poll : bool) (authorization : string)
| EvSetTimeout (ms : Z).

(** The clock ([performance.now()], in milliseconds) and the calls issued so
    far, the latest first. *)
Record World : Type := {
  now : Q;
  trace : list Event
}.

(** An answer of the remote side and the time the round trip took. *)
Record Reply (D : Type) : Type := {
  took : Q;
  outcome : Fetch D
}.
Arguments took {D} _.
Arguments outcome {D} _.

(** The environment: what the remote side replies to the request at the head
    of the trace, how late a timer fires, and how the host prints a number
    ([Number.prototype.toString], used by the template literals). *)
Record Env : Type := {
  on_create : World -> Reply CreateBody;
  on_get : World -> Reply GetBody;
  timer_lag : World -> Q;
  toString : Q -> string
}.

Definition M (A : Type) : Type := World -> A * World.

Definition ret {A : Type} (a : A) : M A := fun w => (a, w).

Definition bind {A B : Type} (m : M A) (k : A -> M B) : M B :=
  fun w => let (a, w') := m w in k a w'.

Notation "x <- m ;; k" := (bind m (fun x => k))
  (at level 61, m at next level, right associativity).
Notation "m ;; k" := (bind m (fun _ => k))
  (at level 61, right associativity).

Definition issue (e : Event) : M unit :=
  fun w => (tt, {| now := now w; trace := e :: trace w |}).

Definition elapse (d : Q) : M unit :=
  fun w => (tt, {| now := now w + d; trace := trace w |}).

Definition observe {A : Type} (f : World -> A) : M A :=
  fun w => (f w, w).

(** [performance.now()] *)
Definition performance_now : M Q := observe now.

(** [await new Promise((resolve) => setTimeout(resolve, ms))] *)
Definition sleep (env : Env) (ms : Z) : M unit :=
  issue (EvSetTimeout ms) ;;
  lag <- observe (timer_lag env) ;;
  elapse (inject_Z ms + lag).

Definition client_POST (env : Env) (client : ApiClient) (path : string)
    (authorization : string) (question : ConfirmationQuestion)
    : M (Fetch CreateBody) :=
  issue (EvPOST client path authorization question) ;;
  r <- observe (on_create env) ;;
  elapse (took r) ;;
  ret (outcome r).

Definition client_GET (env : Env) (client : ApiClient) (path : string)
    (confirmation_id : Nullable string) (long_poll : bool)
    (authorization : string)
    : M (Fetch GetBody) :=
  issue (EvGET client path confirmation_id long_poll authorization) ;;
  r <- observe (on_get env) ;;
  elapse (took r) ;;
  ret (outcome r).

(** ** The methods *)

Section Methods.

Variable env : Env.
Variable this : WaitHuman.

Definition createConfirmation (question : ConfirmationQuestion)
    : M (Result (Nullable string)) :=
  r <- client_POST env (this_client this) "/confirmations/create"
         (this_apiKey this) question ;;
  match r with
  | Resolves f =>
      match error f, data f with
      | None, Some d => ret (Data (confirmation_request_id d))
      | _, _ =>
          ret (Err {| reason := create_failed;
                      description := Some (statusText (response f)) |})
      end
  | Rejects => ret (Err {| reason := network_error; description := None |})
  end.

Definition pollIntervalMs : Z := 3000.

(** [timeoutSeconds != null && elapsedSeconds > timeoutSeconds] *)
Definition deadline_passed (timeoutSeconds : Nullable JsNumber)
    (elapsedSeconds : Q) : bool :=
  match timeoutSeconds with
  | value t => gt_number elapsedSeconds t
  | _ => false
  end.

(** One turn of the [while (true)] loop: [Some r] when the turn returns [r],
    [None] when it reaches the end of the body and the loop goes round. *)
Definition poll_turn (startTimestampMs : Q)
    (confirmationId : Nullable string)
    (timeoutSeconds : Nullable JsNumber)
    : M (option (Result ConfirmationAnswer)) :=
  t <- performance_now ;;
  let elapsedSeconds := (t - startTimestampMs) / 1000 in
  if deadline_passed timeoutSeconds elapsedSeconds then
    ret (Some (Err {| reason := timeout;
                      description :=
                        Some ("elapsed seconds: "
                              ++ toString env elapsedSeconds) |}))
  else
    r <- client_GET env (this_client this)
           "/confirmations/get/{confirmation_id}" confirmationId false
           (this_apiKey this) ;;
    match r with
    | Resolves f =>
        match error f with
        | Some _ =>
            ret (Some (Err {| reason := poll_failed;
                              description :=
                                Some (statusText (response f)) |}))
        | None =>
            match data f with
            | Some {| maybe_answer := Some a |} => ret (Some (Data a))
            | _ => sleep env pollIntervalMs ;; ret None
            end
        end
    | Rejects =>
        ret (Some (Err {| reason := network_error; description := None |}))
    end.

(** The loop, for at most [fuel] turns; [None] when it is still running. *)
Fixpoint poll_loop (fuel : nat) (startTimestampMs : Q)
    (confirmationId : Nullable string) (timeoutSeconds : Nullable JsNumber)
    : M (option (Result ConfirmationAnswer)) :=
  match fuel with
  | O => ret None
  | S fuel' =>
      r <- poll_turn startTimestampMs confirmationId timeoutSeconds ;;
      match r with
      | Some res => ret (Some res)
      | None => poll_loop fuel' startTimestampMs confirmationId timeoutSeconds
      end
  end.

Definition pollForAnswer (fuel : nat) (confirmationId : Nullable string)
    (timeoutSeconds : Nullable JsNumber)
    : M (option (Result ConfirmationAnswer)) :=
  startTimestampMs <- performance_now ;;
  poll_loop fuel startTimestampMs confirmationId timeoutSeconds.

(** [options?.timeoutSeconds] *)
Definition options_timeoutSeconds (options : Nullable AskOptions)
    : Nullable JsNumber :=
  match options with
  | value o => timeoutSeconds o
  | _ => undefined
  end.

Definition ask (fuel : nat) (question : ConfirmationQuestion)
    (options : Nullable AskOptions)
    : M (option (Result ConfirmationAnswer)) :=
  confirmationResult <- createConfirmation question ;;
  match confirmationResult with
  | Err e => ret (Some (Err e))
  | Data id => pollForAnswer fuel id (options_timeoutSeconds options)
  end.

(** [`WaitHuman Error: ${error.reason} ${error.description ?? ""}`] *)
Definition error_message (e : WaitHumanError) : string :=
  "WaitHuman Error: " ++ reason_string (reason e) ++ " "
  ++ match description e with
     | Some d => d
     | None => ""
     end.

Definition askFreeText (fuel : nat) (subject : string)
    (body : Nullable string) (options : Nullable AskOptions)
    : M (option (Completion string)) :=
  let question :=
    {| method := push;
       subject := subject;
       body := or_null body;
       answer_format := format_free_text |} in
  result <- ask fuel question options ;;
  match result with
  | None => ret None
  | Some (Err e) => ret (Some (Thrown (error_message e)))
  | Some (Data d) =>
      let content := answer_content (answer d) in
      match content with
      | content_free_text text => ret (Some (Returned text))
      | _ =>
          ret (Some (Thrown ("Unexpected answer type: " ++ content_type content
                             ++ ". Expected 'free_text'.")))
      end
  end.

(** [`${selectedIndex}`] for a value that may be [undefined] *)
Definition index_string (selectedIndex : option Z) : string :=
  match selectedIndex with
  | Some i => toString env (inject_Z i)
  | None => "undefined"
  end.

(** [choices[selectedIndex]]: [undefined] outside the array *)
Definition array_get {A : Type} (l : list A) (i : Z) : option A :=
  if (i <? 0)%Z then None else nth_error l (Z.to_nat i).

Definition askMultipleChoice (fuel : nat) (subject : string)
    (choices : list string) (body : Nullable string)
    (options : Nullable AskOptions)
    : M (option (Completion string)) :=
  let question :=
    {| method := push;
       subject := subject;
       body := or_null body;
       answer_format := format_options choices false |} in
  result <- ask fuel question options ;;
  match result with
  | None => ret None
  | Some (Err e) => ret (Some (Thrown (error_message e)))
  | Some (Data d) =>
      let content := answer_content (answer d) in
      match content with
      | content_options selected_indexes =>
          let selectedIndex := nth_error selected_indexes 0 in
          let invalid :=
            Thrown ("Invalid selected index received: "
                    ++ index_string selectedIndex) in
          match selectedIndex with
          | None => ret (Some invalid)
          | Some i =>
              if ((i <? 0) || (Z.of_nat (List.length choices) <=? i))%Z then
                ret (Some invalid)
              else
                match array_get choices i with
                | None => ret (Some invalid)
                | Some choice => ret (Some (Returned choice))
                end
          end
      | _ =>
          ret (Some (Thrown ("Unexpected answer type: " ++ content_type content
                             ++ ". Expected 'options'.")))
      end
  end.

End Methods.

(** ** Vocabulary for the statements *)

Section Vocabulary.

Variable env : Env.
Variable this : WaitHuman.

(** The creation call of [createConfirmation]: its outcome and the world it
    leaves. *)
Definition create_call (question : ConfirmationQuestion)
    : M (Fetch CreateBody) :=
  client_POST env (this_client this) "/confirmations/create"
    (this_apiKey this) question.

(** The poll call of one turn of the loop. *)
Definition poll_call (confirmationId : Nullable string)
    : M (Fetch GetBody) :=
  client_GET env (this_client this) "/confirmations/get/{confirmation_id}"
    confirmationId false (this_apiKey this).

(** A creation call that fails: a transport exception, a non-success response
    or a response without a body. *)
Definition create_fails (r : Fetch CreateBody) : Prop :=
  match r with
  | Rejects => True
  | Resolves f => error f <> None \/ data f = None
  end.

(** A poll response the loop takes for "no answer yet": no error payload,
    and either no body or a body whose [maybe_answer] is [null]. *)
Definition pending (r : Fetch GetBody) : Prop :=
  exists f, r = Resolves f /\ error f = None /\
            (data f = None \/ data f = Some {| maybe_answer := None |}).

(** A successful poll response that carries the answer [a]. *)
Definition answered (r : Fetch GetBody) (a : ConfirmationAnswer) : Prop :=
  exists f, r = Resolves f /\ error f = None /\
            data f = Some {| maybe_answer := Some a |}.

End Vocabulary.

Definition is_GET (e : Event) : bool :=
  match e with
  | EvGET _ _ _ _ _ => true
  | _ => false
  end.

(** The number of poll requests issued so far. *)
Definition polls (w : World) : nat :=
  List.length (filter is_GET (trace w)).

(** Seconds elapsed at [w] since [start] (both in milliseconds). *)
Definition elapsed (start : Q) (w : World) : Q := (now w - start) / 1000.

(** The result of the timeout exit taken in world [w], [start] being the
    time the loop started at (lines 203-208). *)
Definition timed_out_at (env : Env) (start : Q) (w : World)
    : option (Result ConfirmationAnswer) * World :=
  (Some (Err {| reason := timeout;
                description :=
                  Some ("elapsed seconds: "
                        ++ toString env (elapsed start w)) |}), w).

(** ** Vocabulary for the traces *)

(** The poll request of an instance for the confirmation [id] (lines
    212-223), and the timer of the loop (line 242). *)
Definition poll_event (this : WaitHuman) (id : Nullable string) : Event :=
  EvGET (this_client this) "/confirmations/get/{confirmation_id}" id false
    (this_apiKey this).

Definition timer_event : Event := EvSetTimeout 3000.

Definition create_event (this : WaitHuman) (q : ConfirmationQuestion) : Event :=
  EvPOST (this_client this) "/confirmations/create" (this_apiKey this) q.

(** The events of [n] turns that went round, the latest first: each turn is
    a poll request followed by the timer. *)
Fixpoint rounds (this : WaitHuman) (id : Nullable string) (n : nat) : list Event :=
  match n with
  | O => []
  | S n' => timer_event :: poll_event this id :: rounds this id n'
  end.

(** Whether the turn that produced [r] issued its poll request before it
    returned: every exit but the timeout one does. *)
Definition polled_last (r : option (Result ConfirmationAnswer)) : bool :=
  match r with
  | None => false
  | Some (Data _) => true
  | Some (Err e) =>
      match reason e with
      | timeout => false
      | _ => true
      end
  end.

(** The events the loop has issued when it stops with [r] after [n] turns
    that went round. *)
Definition loop_events (this : WaitHuman) (id : Nullable string)
    (r : option (Result ConfirmationAnswer)) (n : nat) : list Event :=
  (if polled_last r then [poll_event this id] else []) ++ rounds this id n.

Definition is_POST (e : Event) : bool :=
  match e with
  | EvPOST _ _ _ _ => true
  | _ => false
  end.

Definition is_timer (e : Event) : bool :=
  match e with
  | EvSetTimeout _ => true
  | _ => false
  end.

(** The number of creation requests and of timers so far. *)
Definition posts (w : World) : nat :=
  List.length (filter is_POST (trace w)).

Definition timers (w : World) : nat :=
  List.length (filter is_timer (trace w)).

(** An event as the instance built from [config] issues it: the client of
    the stripped endpoint, the configured key as the [Authorization] header,
    [long_poll: false], a 3000 ms timer. *)
Definition configured (config : WaitHumanConfig) (e : Event) : Prop :=
  match e with
  | EvPOST c _ a _ =>
      baseUrl c
      = strip_slash (nullish (endpoint config) DEFAULT_BACKEND_ENDPOINT) /\
      apiKey config = value a
  | EvGET c _ _ lp a =>
      baseUrl c
      = strip_slash (nullish (endpoint config) DEFAULT_BACKEND_ENDPOINT) /\
      apiKey config = value a /\ lp = false
  | EvSetTimeout ms => ms = 3000%Z
  end.

(** ** Environments for the examples *)

(** A host printer for the examples: the integral part in decimal (what the
    host prints for the integral values the examples meet). *)
Definition print_integral (q : Q) : string :=
  NilZero.string_of_int (Z.to_int (Qfloor q)).

(** A success response with body [d] (or none). *)
Definition ok {D : Type} (d : option D) : Fetch D :=
  Resolves {| data := d; error := None;
              response := {| statusText := "OK"; response_ok := true |} |}.

(** A non-success response with the given error body and status text. *)
Definition failure {D : Type} (body status : string) : Fetch D :=
  Resolves {| data := None; error := Some body;
              response := {| statusText := status;
                             response_ok := false |} |}.

(** A non-success response whose error body is empty: the client reports
    neither [data] nor a truthy [error]. *)
Definition failure_without_body {D : Type} (status : string) : Fetch D :=
  Resolves {| data := None; error := None;
              response := {| statusText := status;
                             response_ok := false |} |}.

Definition not_yet : Fetch GetBody := ok (Some {| maybe_answer := None |}).

Definition answer_with (c : AnswerContent) : Fetch GetBody :=
  ok (Some {| maybe_answer :=
                Some {| answer := {| answer_content := c |};
                        date := "2025-01-01T00:00:00Z" |} |}).

(** The remote side follows a script: [create] answers the creation call, the
    n-th poll gets the n-th entry of [gets] ([not_yet] once the script is
    over); every round trip takes [latency] milliseconds and timers fire on
    time. *)
Definition scripted (create : Fetch CreateBody) (gets : list (Fetch GetBody))
    (latency : Q) : Env :=
  {| on_create := fun _ => {| took := latency; outcome := create |};
     on_get := fun w =>
       {| took := latency;
          outcome := nth (pred (polls w)) gets not_yet |};
     timer_lag := fun _ => 0;
     toString := print_integral |}.

Definition created (id : string) : Fetch CreateBody :=
  ok (Some {| confirmation_request_id := value id |}).

Definition sample_this : WaitHuman :=
  {| this_apiKey := "key";
     this_client := createApiClient "https://api.waithuman.com" |}.

Definition sample_question : ConfirmationQuestion :=
  {| method := push; subject := "Send invoice?"; body := null;
     answer_format := format_free_text |}.

Definition boot : World := {| now := 0; trace := [] |}.

(** * Properties *)

(** ** Strings *)

Lemma length_app (s t : string) :
  String.length (s ++ t) = (String.length s + String.length t)%nat.
Proof.
  induction s as [|c s IH]; simpl; [reflexivity | now rewrite IH].
Qed.

Lemma substring_all (s : string) : substring 0 (String.length s) s = s.
Proof.
  induction s as [|c s IH]; simpl; [reflexivity | now rewrite IH].
Qed.

Lemma substring_prefix (s t : string) :
  substring 0 (String.length s) (s ++ t) = s.
Proof.
  induction s as [|c s IH]; simpl.
  - now destruct t.
  - now rewrite IH.
Qed.

Lemma substring_suffix (s t : string) :
  substring (String.length s) (String.length t) (s ++ t) = t.
Proof.
  induction s as [|c s IH]; simpl; [apply substring_all | exact IH].
Qed.

Lemma substring_split (s : string) (n : nat) :
  (n <= String.length s)%nat ->
  s = substring 0 n s ++ substring n (String.length s - n) s.
Proof.
  revert n; induction s as [|c s IH]; intros [|n] H; simpl in *;
    try reflexivity; try lia.
  - now rewrite substring_all.
  - f_equal. apply IH. lia.
Qed.

Lemma endsWith_iff (s t : string) :
  endsWith s t = true <-> exists p, s = p ++ t.
Proof.
  unfold endsWith. rewrite andb_true_iff, Nat.leb_le, String.eqb_eq. split.
  - intros [Hle Hsub].
    exists (substring 0 (String.length s - String.length t) s).
    etransitivity;
      [apply (substring_split s (String.length s - String.length t)); lia|].
    f_equal.
    replace (String.length s - (String.length s - String.length t))%nat
      with (String.length t) by lia.
    exact Hsub.
  - intros [p ->]. rewrite length_app. split; [lia|].
    replace (String.length p + String.length t - String.length t)%nat
      with (String.length p) by lia.
    apply substring_suffix.
Qed.

Lemma endsWith_false_iff (s t : string) :
  endsWith s t = false <-> forall p, s <> p ++ t.
Proof.
  rewrite <- not_true_iff_false, endsWith_iff. split.
  - intros H p Hp. apply H. now exists p.
  - intros H [p Hp]. exact (H p Hp).
Qed.

(** [slice(0, -1)] removes the last character, whatever it is. *)
Lemma slice_drop_last (p : string) (c : ascii) :
  slice (p ++ String c EmptyString) 0 (-1) = p.
Proof.
  unfold slice. rewrite length_app. simpl String.length.
  change (0 <? 0)%Z with false. change (-1 <? 0)%Z with true. cbv iota.
  set (len := Z.of_nat (String.length p + 1)).
  assert (Hfrom : Z.to_nat (Z.min 0 len) = 0%nat) by lia.
  assert (Hto : Z.to_nat (Z.max (Z.max (len + -1) 0 - Z.min 0 len) 0)
                = String.length p) by lia.
  rewrite Hfrom, Hto. apply substring_prefix.
Qed.

Lemma app_assoc_string (s t u : string) : (s ++ t) ++ u = s ++ (t ++ u).
Proof.
  induction s as [|c s IH]; simpl; [reflexivity | now rewrite IH].
Qed.

(** ** The constructor *)

Lemma strip_slash_ends (p : string) : strip_slash (p ++ "/") = p.
Proof.
  unfold strip_slash.
  replace (endsWith (p ++ "/") "/") with true
    by (symmetry; apply endsWith_iff; now exists p).
  apply slice_drop_last.
Qed.

Lemma strip_slash_other (e : string) :
  (forall p, e <> p ++ "/") -> strip_slash e = e.
Proof.
  intros H. unfold strip_slash.
  now replace (endsWith e "/") with false
    by (symmetry; now apply endsWith_false_iff).
Qed.

Lemma constructor_throws_iff (config : WaitHumanConfig) :
  (exists m, constructor config = Thrown m) <-> truthy (apiKey config) = None.
Proof.
  unfold constructor. destruct (truthy (apiKey config)); split.
  - intros [m H]; discriminate.
  - discriminate.
  - reflexivity.
  - intros _. now eexists.
Qed.

Lemma truthy_None (x : Nullable string) :
  truthy x = None <-> ~ present x \/ x = value "".
Proof.
  unfold present. destruct x as [| |s]; simpl.
  - split; [left; intros [a Ha]; discriminate | reflexivity].
  - split; [left; intros [a Ha]; discriminate | reflexivity].
  - destruct (String.eqb_spec s EmptyString) as [->|Hs]; split.
    + now right.
    + reflexivity.
    + discriminate.
    + intros [Hn | He]; [exfalso; apply Hn; now exists s | congruence].
Qed.

Lemma constructor_returns (config : WaitHumanConfig) (inst : WaitHuman) :
  constructor config = Returned inst ->
  apiKey config = value (this_apiKey inst) /\
  baseUrl (this_client inst)
  = strip_slash (nullish (endpoint config) DEFAULT_BACKEND_ENDPOINT).
Proof.
  unfold constructor, truthy.
  destruct (apiKey config) as [| |key]; try discriminate.
  destruct (String.eqb key EmptyString); [discriminate|].
  intros H; inversion H; subst; simpl. now split.
Qed.

(** C9, as stated, fails: an [apiKey] that is present but empty makes the
    constructor throw. *)
Lemma constructor_throws_on_empty_key :
  let config := {| apiKey := value ""; endpoint := undefined |} in
  present (apiKey config) /\ constructor config = Thrown "apiKey is mandatory".
Proof.
  split; [now exists "" | reflexivity].
Qed.

(** C9 (amended): constructing the facade throws if and only if the apiKey is
    absent or the empty string; when construction succeeds the instance keeps
    the key, and the endpoint handed to the client is the configured one, or
    the default when none is given, with one trailing slash removed. *)
Theorem constructor_spec (config : WaitHumanConfig) :
  ((exists m, constructor config = Thrown m) <->
   (~ present (apiKey config) \/ apiKey config = value "")) /\
  (forall inst, constructor config = Returned inst ->
     apiKey config = value (this_apiKey inst) /\
     let e := nullish (endpoint config) DEFAULT_BACKEND_ENDPOINT in
     (endpoint config = undefined \/ endpoint config = null ->
      e = "https://api.waithuman.com") /\
     (forall ep, endpoint config = value ep -> e = ep) /\
     (forall p, e = p ++ "/" -> baseUrl (this_client inst) = p) /\
     ((forall p, e <> p ++ "/") -> baseUrl (this_client inst) = e)).
Proof.
  split.
  - rewrite constructor_throws_iff. apply truthy_None.
  - intros inst H. destruct (constructor_returns _ _ H) as [Hk Hb].
    split; [exact Hk|]. cbv zeta. rewrite Hb.
    repeat split.
    + intros [-> | ->]; reflexivity.
    + intros ep ->; reflexivity.
    + intros p ->. apply strip_slash_ends.
    + apply strip_slash_other.
Qed.

Lemma constructor_spec_witness :
  let config := {| apiKey := value "k"; endpoint := value "http://h/" |} in
  let inst := {| this_apiKey := "k"; this_client := createApiClient "http://h" |} in
  constructor config = Returned inst /\
  baseUrl (this_client inst) = "http://h".
Proof.
  split; [reflexivity|].
  refine (proj1 (proj2 (proj2 (proj2 (proj2 (constructor_spec
    {| apiKey := value "k"; endpoint := value "http://h/" |}) _ _)))) _ _);
    reflexivity.
Defined.

(** C10: the constructor removes at most one trailing slash.  For an endpoint
    ending in "/" exactly the last character is removed, so one ending in "//"
    still ends in "/" afterwards; an endpoint not ending in "/" is used as it
    is. *)
Theorem constructor_strips_one_slash
    (key : Nullable string) (ep : string) (inst : WaitHuman) :
  constructor {| apiKey := key; endpoint := value ep |} = Returned inst ->
  (forall p, ep = p ++ "/" -> baseUrl (this_client inst) = p) /\
  (forall p, ep = p ++ "//" ->
     baseUrl (this_client inst) = p ++ "/" /\
     endsWith (baseUrl (this_client inst)) "/" = true) /\
  ((forall p, ep <> p ++ "/") -> baseUrl (this_client inst) = ep).
Proof.
  intros H. destruct (constructor_returns _ _ H) as [_ Hb]. simpl in Hb.
  rewrite Hb. repeat split.
  - intros p ->. apply strip_slash_ends.
  - subst ep. change "//" with ("/" ++ "/"). rewrite <- app_assoc_string.
    apply strip_slash_ends.
  - subst ep. change "//" with ("/" ++ "/"). rewrite <- app_assoc_string.
    rewrite strip_slash_ends. apply endsWith_iff. now exists p.
  - apply strip_slash_other.
Qed.

Lemma constructor_strips_one_slash_witness :
  constructor {| apiKey := value "k"; endpoint := value "http://h//" |}
  = Returned {| this_apiKey := "k"; this_client := createApiClient "http://h/" |}
  /\ baseUrl (createApiClient "http://h/") = "http://h" ++ "/".
Proof.
  split; [reflexivity|].
  refine (proj1 (proj1 (proj2 (constructor_strips_one_slash (value "k")
    "http://h//" {| this_apiKey := "k";
                    this_client := createApiClient "http://h/" |} _))
    "http://h" _)); reflexivity.
Defined.

(** ** The monad *)

Lemma bind_run {A B : Type} (m : M A) (k : A -> M B) (w : World) :
  bind m k w = k (fst (m w)) (snd (m w)).
Proof. unfold bind. now destruct (m w). Qed.

Lemma client_POST_run env client path auth q w :
  let w1 := {| now := now w; trace := EvPOST client path auth q :: trace w |} in
  client_POST env client path auth q w
  = (outcome (on_create env w1),
     {| now := now w + took (on_create env w1); trace := trace w1 |}).
Proof. reflexivity. Qed.

Lemma client_GET_run env client path id lp auth w :
  let w1 := {| now := now w; trace := EvGET client path id lp auth :: trace w |} in
  client_GET env client path id lp auth w
  = (outcome (on_get env w1),
     {| now := now w + took (on_get env w1); trace := trace w1 |}).
Proof. reflexivity. Qed.

Lemma sleep_run env ms w :
  let w1 := {| now := now w; trace := EvSetTimeout ms :: trace w |} in
  sleep env ms w
  = (tt, {| now := now w + (inject_Z ms + timer_lag env w1);
            trace := trace w1 |}).
Proof. reflexivity. Qed.

(** ** The create phase *)

Section Engine.

Variable env : Env.
Variable this : WaitHuman.

Lemma createConfirmation_run (q : ConfirmationQuestion) (w : World) :
  createConfirmation env this q w
  = (match fst (create_call env this q w) with
     | Resolves f =>
         match error f, data f with
         | None, Some d => Data (confirmation_request_id d)
         | _, _ => Err {| reason := create_failed;
                          description := Some (statusText (response f)) |}
         end
     | Rejects => Err {| reason := network_error; description := None |}
     end,
     snd (create_call env this q w)).
Proof.
  unfold createConfirmation. rewrite bind_run. fold (create_call env this q).
  destruct (fst (create_call env this q w)) as [|f]; [reflexivity|].
  destruct (error f), (data f); reflexivity.
Qed.

Lemma create_call_trace (q : ConfirmationQuestion) (w : World) :
  trace (snd (create_call env this q w))
  = EvPOST (this_client this) "/confirmations/create" (this_apiKey this) q
      :: trace w.
Proof. reflexivity. Qed.

Lemma ask_run (fuel : nat) (q : ConfirmationQuestion)
    (options : Nullable AskOptions) (w : World) :
  ask env this fuel q options w
  = match fst (createConfirmation env this q w) with
    | Err e => (Some (Err e), snd (createConfirmation env this q w))
    | Data id =>
        pollForAnswer env this fuel id (options_timeoutSeconds options)
          (snd (createConfirmation env this q w))
    end.
Proof.
  unfold ask. rewrite bind_run.
  now destruct (fst (createConfirmation env this q w)).
Qed.

Lemma create_fails_error (q : ConfirmationQuestion) (w : World) :
  create_fails (fst (create_call env this q w)) ->
  exists e, fst (createConfirmation env this q w) = Err e.
Proof.
  rewrite createConfirmation_run. cbn [fst].
  destruct (fst (create_call env this q w)) as [|f]; cbn [create_fails].
  - intros _. now eexists.
  - destruct (error f), (data f); intros [H | H]; try congruence;
      now eexists.
Qed.

(** C1: when the creation call fails, [ask] returns the error of the create
    phase as it is, in the world the creation call leaves: the POST is the
    only request issued, no poll request follows. *)
Theorem ask_create_failure (fuel : nat) (q : ConfirmationQuestion)
    (options : Nullable AskOptions) (w : World) :
  create_fails (fst (create_call env this q w)) ->
  exists e,
    createConfirmation env this q w = (Err e, snd (create_call env this q w)) /\
    ask env this fuel q options w
    = (Some (Err e), snd (create_call env this q w)) /\
    trace (snd (create_call env this q w))
    = EvPOST (this_client this) "/confirmations/create" (this_apiKey this) q
        :: trace w /\
    polls (snd (create_call env this q w)) = polls w.
Proof.
  intros Hf. destruct (create_fails_error q w Hf) as [e He].
  exists e. split; [|split; [|split]].
  - rewrite createConfirmation_run in *. cbn [fst] in He. now rewrite He.
  - rewrite ask_run, He. f_equal. now rewrite createConfirmation_run.
  - apply create_call_trace.
  - unfold polls. now rewrite create_call_trace.
Qed.

End Engine.

Lemma ask_create_failure_witness :
  create_fails
    (fst (create_call (scripted (failure "quota" "Too Many Requests") [] 0)
            sample_this sample_question boot)) /\
  exists e,
    ask (scripted (failure "quota" "Too Many Requests") [] 0) sample_this 4
      sample_question undefined boot
    = (Some (Err e),
       snd (create_call (scripted (failure "quota" "Too Many Requests") [] 0)
              sample_this sample_question boot)).
Proof.
  assert (H : create_fails
    (fst (create_call (scripted (failure "quota" "Too Many Requests") [] 0)
            sample_this sample_question boot)))
    by (left; discriminate).
  split; [exact H|].
  destruct (ask_create_failure
              (scripted (failure "quota" "Too Many Requests") [] 0)
              sample_this 4 sample_question undefined boot H)
    as [e [_ [Ha _]]].
  now exists e.
Defined.

Lemma scripted_pending (create : Fetch CreateBody) (latency : Q)
    (this : WaitHuman) (id : Nullable string) (w : World) :
  pending (fst (poll_call (scripted create [] latency) this id w)).
Proof.
  unfold poll_call. rewrite client_GET_run. cbn [fst outcome on_get scripted].
  match goal with |- pending (nth ?n _ _) => destruct n end;
    (eexists; split; [reflexivity | split; [reflexivity | now right]]).
Qed.

(** ** The poll loop *)

Section PollLoop.

Variable env : Env.
Variable this : WaitHuman.

(** The world a turn leaves when it goes round: after the poll call and the
    timer. *)
Lemma poll_turn_run (start : Q) (id : Nullable string) (T : Nullable JsNumber)
    (w : World) :
  poll_turn env this start id T w
  = if deadline_passed T (elapsed start w) then
      (Some (Err {| reason := timeout;
                    description :=
                      Some ("elapsed seconds: "
                            ++ toString env (elapsed start w)) |}), w)
    else
      let w1 := snd (poll_call env this id w) in
      match fst (poll_call env this id w) with
      | Resolves f =>
          match error f with
          | Some _ =>
              (Some (Err {| reason := poll_failed;
                            description := Some (statusText (response f)) |}),
               w1)
          | None =>
              match data f with
              | Some {| maybe_answer := Some a |} => (Some (Data a), w1)
              | _ => (None, snd (sleep env pollIntervalMs w1))
              end
          end
      | Rejects =>
          (Some (Err {| reason := network_error; description := None |}), w1)
      end.
Proof.
  unfold poll_turn, elapsed, performance_now, observe.
  rewrite bind_run. cbn [fst snd].
  destruct (deadline_passed T ((now w - start) / 1000)); [reflexivity|].
  rewrite bind_run. fold (poll_call env this id). cbv zeta.
  destruct (fst (poll_call env this id w)) as [|f]; [reflexivity|].
  destruct (error f); [reflexivity|].
  destruct (data f) as [[[a|]]|]; reflexivity.
Qed.

Lemma poll_loop_S (fuel : nat) (start : Q) (id : Nullable string)
    (T : Nullable JsNumber) (w : World) :
  poll_loop env this (S fuel) start id T w
  = match fst (poll_turn env this start id T w) with
    | Some res => (Some res, snd (poll_turn env this start id T w))
    | None =>
        poll_loop env this fuel start id T
          (snd (poll_turn env this start id T w))
    end.
Proof.
  cbn [poll_loop]. rewrite bind_run.
  now destruct (fst (poll_turn env this start id T w)).
Qed.

(** Turns that went round can be replayed: the loop resumes where they left. *)
Lemma poll_loop_resume (n m : nat) (start : Q) (id : Nullable string)
    (T : Nullable JsNumber) (w w' : World) :
  poll_loop env this n start id T w = (None, w') ->
  poll_loop env this (n + m) start id T w = poll_loop env this m start id T w'.
Proof.
  revert w; induction n as [|n IH]; intros w H.
  - cbn in H. now inversion H.
  - rewrite poll_loop_S in H. cbn [Nat.add]. rewrite poll_loop_S.
    destruct (fst (poll_turn env this start id T w)); [discriminate|].
    now apply IH.
Qed.

(** Fuel only bounds the number of turns: a result, once reached, is the
    result for every larger bound. *)
Lemma poll_loop_more_fuel (n k : nat) (start : Q) (id : Nullable string)
    (T : Nullable JsNumber) (w w' : World) (res : Result ConfirmationAnswer) :
  poll_loop env this n start id T w = (Some res, w') ->
  poll_loop env this (n + k) start id T w = (Some res, w').
Proof.
  revert w; induction n as [|n IH]; intros w.
  - discriminate.
  - cbn [Nat.add]. rewrite !poll_loop_S.
    destruct (fst (poll_turn env this start id T w)); [trivial | apply IH].
Qed.


Lemma pollForAnswer_run (fuel : nat) (id : Nullable string) (T : Nullable JsNumber)
    (w : World) :
  pollForAnswer env this fuel id T w = poll_loop env this fuel (now w) id T w.
Proof. reflexivity. Qed.

Lemma ask_more_fuel (n k : nat) (q : ConfirmationQuestion)
    (options : Nullable AskOptions) (w w' : World)
    (res : Result ConfirmationAnswer) :
  ask env this n q options w = (Some res, w') ->
  ask env this (n + k) q options w = (Some res, w').
Proof.
  rewrite !ask_run.
  destruct (fst (createConfirmation env this q w)); [|trivial].
  rewrite !pollForAnswer_run. apply poll_loop_more_fuel.
Qed.

Lemma pending_turn (start : Q) (id : Nullable string) (T : Nullable JsNumber)
    (w : World) :
  deadline_passed T (elapsed start w) = false ->
  pending (fst (poll_call env this id w)) ->
  poll_turn env this start id T w
  = (None, snd (sleep env pollIntervalMs (snd (poll_call env this id w)))).
Proof.
  intros Hd (f & Hf & He & Hb). rewrite poll_turn_run, Hd, Hf, He. cbv zeta.
  now destruct Hb as [-> | ->].
Qed.

Lemma ask_polls (fuel : nat) (q : ConfirmationQuestion)
    (options : Nullable AskOptions) (w w0 : World) (id : Nullable string) :
  createConfirmation env this q w = (Data id, w0) ->
  ask env this fuel q options w
  = poll_loop env this fuel (now w0) id (options_timeoutSeconds options) w0.
Proof.
  intros H. rewrite ask_run, H. reflexivity.
Qed.


(** The reasons the loop can return. *)
Lemma poll_turn_reasons (start : Q) (id : Nullable string) (T : Nullable JsNumber)
    (w w' : World) (e : WaitHumanError) :
  poll_turn env this start id T w = (Some (Err e), w') ->
  reason e = timeout \/ reason e = network_error \/ reason e = poll_failed.
Proof.
  rewrite poll_turn_run.
  destruct (deadline_passed T (elapsed start w)).
  - intros H; inversion H. now left.
  - cbv zeta. destruct (fst (poll_call env this id w)) as [|f].
    + intros H; inversion H. right; now left.
    + destruct (error f).
      * intros H; inversion H. right; now right.
      * destruct (data f) as [[[a|]]|]; discriminate.
Qed.

Lemma poll_loop_reasons (fuel : nat) (start : Q) (id : Nullable string)
    (T : Nullable JsNumber) (w w' : World) (e : WaitHumanError) :
  poll_loop env this fuel start id T w = (Some (Err e), w') ->
  reason e = timeout \/ reason e = network_error \/ reason e = poll_failed.
Proof.
  revert w; induction fuel as [|fuel IH]; intros w.
  - discriminate.
  - rewrite poll_loop_S.
    destruct (poll_turn env this start id T w) as [[res|] w1] eqn:Ht;
      cbn [fst snd].
    + intros H; inversion H; subst. eapply poll_turn_reasons; eassumption.
    + apply IH.
Qed.

(** C8: [ask] only ever returns the reasons [network_error], [create_failed],
    [poll_failed] and [timeout], never [invalid_response] nor
    [unexpected_answer_type].  A successful poll response without an answer
    (no body, or a null [maybe_answer]) does not end the operation: the turn
    arms the 3000 ms timer after the poll call and the loop resumes, with the
    turns it has left, from the world the timer leaves. *)
Theorem ask_reasons_and_pending :
  (forall fuel q options w e w',
     ask env this fuel q options w = (Some (Err e), w') ->
     (reason e = network_error \/ reason e = create_failed \/
      reason e = poll_failed \/ reason e = timeout) /\
     reason e <> invalid_response /\ reason e <> unexpected_answer_type) /\
  (forall n k q options id w_init w0 w,
     let T := options_timeoutSeconds options in
     let w1 := snd (poll_call env this id w) in
     let w2 := snd (sleep env 3000 w1) in
     createConfirmation env this q w_init = (Data id, w0) ->
     poll_loop env this n (now w0) id T w0 = (None, w) ->
     deadline_passed T (elapsed (now w0) w) = false ->
     pending (fst (poll_call env this id w)) ->
     poll_turn env this (now w0) id T w = (None, w2) /\
     ask env this (n + S k) q options w_init
     = poll_loop env this k (now w0) id T w2 /\
     trace w2 = EvSetTimeout 3000 :: trace w1 /\
     now w2 == now w1 + 3000 + timer_lag env
                 {| now := now w1; trace := EvSetTimeout 3000 :: trace w1 |}).
Proof.
  split.
  - intros fuel q options w e w' H.
    assert (Hr : reason e = network_error \/ reason e = create_failed \/
                 reason e = poll_failed \/ reason e = timeout).
    { rewrite ask_run in H.
      destruct (fst (createConfirmation env this q w)) as [id|e0] eqn:Hc.
      - rewrite pollForAnswer_run in H.
        destruct (poll_loop_reasons _ _ _ _ _ _ _ H) as [Hr | [Hr | Hr]];
          rewrite Hr; auto.
      - inversion H; subst e0. rewrite createConfirmation_run in Hc.
        cbn [fst] in Hc.
        destruct (fst (create_call env this q w)) as [|f].
        + inversion Hc. now left.
        + destruct (error f), (data f); inversion Hc; right; now left. }
    split; [exact Hr|].
    split; intros Hbad; rewrite Hbad in Hr;
      destruct Hr as [Hr | [Hr | [Hr | Hr]]]; discriminate.
  - intros n k q options id w_init w0 w T w1 w2 Hc Hn Hd Hp.
    assert (Ht : poll_turn env this (now w0) id T w = (None, w2))
      by (now apply pending_turn).
    split; [exact Ht|]. split; [|split].
    + rewrite (ask_polls _ _ _ _ _ _ Hc). fold T.
      rewrite (poll_loop_resume _ (S k) _ _ _ _ _ Hn), poll_loop_S, Ht.
      reflexivity.
    + reflexivity.
    + subst w2. rewrite sleep_run. cbn [now snd]. ring.
Qed.

End PollLoop.



Lemma ask_reasons_and_pending_witness :
  (reason {| reason := network_error; description := None |} = network_error
   \/ reason {| reason := network_error; description := None |} = create_failed
   \/ reason {| reason := network_error; description := None |} = poll_failed
   \/ reason {| reason := network_error; description := None |} = timeout) /\
  ask (scripted (created "c1") [] 0) sample_this 3 sample_question undefined
    boot
  = poll_loop (scripted (created "c1") [] 0) sample_this 2 (0 + 0) (value "c1")
      undefined
      {| now := 0 + 0 + 0 + (3000 + 0);
         trace := [EvSetTimeout 3000;
                   EvGET (this_client sample_this)
                     "/confirmations/get/{confirmation_id}" (value "c1") false "key";
                   EvPOST (this_client sample_this) "/confirmations/create"
                     "key" sample_question] |}.
Proof.
  split.
  - refine (proj1 (proj1 (ask_reasons_and_pending
                            (scripted Rejects [] 0) sample_this)
                     1%nat sample_question undefined boot _ _ eq_refl)).
  - refine (proj1 (proj2 (proj2 (ask_reasons_and_pending
                                   (scripted (created "c1") [] 0) sample_this)
                            0%nat 2%nat sample_question undefined (value "c1") boot
                            _ _ eq_refl eq_refl eq_refl
                            (scripted_pending _ _ _ _ _)))).
Defined.

(** ** The create phase, case by case *)

(** C2, as stated, fails: a success response whose body lacks the
    [confirmation_request_id] property passes the test of
    [createConfirmation]; the create phase succeeds with an undefined
    identifier and [ask], instead of returning [create_failed], polls with it
    and returns what the poll gives. *)
Lemma create_without_identifier_polls :
  let env := scripted (ok (Some {| confirmation_request_id := undefined |}))
               [answer_with (content_free_text "yes")] 0 in
  createConfirmation env sample_this sample_question boot
  = (Data undefined,
     {| now := 0 + 0;
        trace := [create_event sample_this sample_question] |}) /\
  forall k,
    ask env sample_this (S k) sample_question undefined boot
    = (Some (Data {| answer := {| answer_content := content_free_text "yes" |};
                     date := "2025-01-01T00:00:00Z" |}),
       {| now := 0 + 0 + 0;
          trace := [poll_event sample_this undefined;
                    create_event sample_this sample_question] |}).
Proof.
  cbv zeta. split; [reflexivity|]. intros k. reflexivity.
Qed.

(** C2 (amended): in the create phase a transport exception gives
    [network_error]; a response with an error payload, and a response with
    neither error payload nor body (a success response without a body, or a
    non-success one whose error body is empty), give [create_failed] with the
    status text of the response.  A success response with a body is taken
    as it is: whatever its [confirmation_request_id] is, a missing one
    included, the create phase succeeds with it, [ask] goes on to the poll
    loop for it and never returns [create_failed]. *)
Theorem create_phase_errors (env : Env) (this : WaitHuman) (fuel : nat)
    (q : ConfirmationQuestion) (options : Nullable AskOptions) (w : World) :
  let r := fst (create_call env this q w) in
  (r = Rejects ->
   fst (ask env this fuel q options w)
   = Some (Err {| reason := network_error; description := None |})) /\
  (forall f, r = Resolves f -> error f <> None ->
   fst (ask env this fuel q options w)
   = Some (Err {| reason := create_failed;
                  description := Some (statusText (response f)) |})) /\
  (forall f, r = Resolves f -> error f = None -> data f = None ->
   fst (ask env this fuel q options w)
   = Some (Err {| reason := create_failed;
                  description := Some (statusText (response f)) |})) /\
  (forall f d, r = Resolves f -> error f = None -> data f = Some d ->
   createConfirmation env this q w
   = (Data (confirmation_request_id d), snd (create_call env this q w)) /\
   ask env this fuel q options w
   = pollForAnswer env this fuel (confirmation_request_id d)
       (options_timeoutSeconds options) (snd (create_call env this q w)) /\
   forall e w', ask env this fuel q options w = (Some (Err e), w') ->
                reason e <> create_failed).
Proof.
  cbv zeta. split; [|split; [|split]].
  - intros Hr. rewrite ask_run, createConfirmation_run, Hr. reflexivity.
  - intros f Hr He. rewrite ask_run, createConfirmation_run, Hr. cbn [fst snd].
    destruct (error f); [reflexivity | congruence].
  - intros f Hr He Hd. rewrite ask_run, createConfirmation_run, Hr.
    cbn [fst snd]. now rewrite He, Hd.
  - intros f d Hr He Hd.
    assert (Hc : createConfirmation env this q w
                 = (Data (confirmation_request_id d),
                    snd (create_call env this q w))).
    { rewrite createConfirmation_run, Hr, He, Hd. reflexivity. }
    split; [exact Hc|]. split.
    + rewrite ask_run, Hc. reflexivity.
    + intros e w' Ha. rewrite (ask_polls _ _ _ _ _ _ _ _ Hc) in Ha.
      destruct (poll_loop_reasons _ _ _ _ _ _ _ _ _ Ha) as [H | [H | H]];
        rewrite H; discriminate.
Qed.

Lemma create_phase_errors_witness :
  fst (ask (scripted Rejects [] 0) sample_this 4 sample_question undefined boot)
  = Some (Err {| reason := network_error; description := None |}) /\
  fst (ask (scripted (failure "quota" "Too Many Requests") [] 0) sample_this 4
         sample_question undefined boot)
  = Some (Err {| reason := create_failed;
                 description := Some "Too Many Requests" |}) /\
  fst (ask (scripted (ok None) [] 0) sample_this 4 sample_question undefined
         boot)
  = Some (Err {| reason := create_failed; description := Some "OK" |}) /\
  fst (ask (scripted (failure_without_body "Bad Gateway") [] 0) sample_this 4
         sample_question undefined boot)
  = Some (Err {| reason := create_failed; description := Some "Bad Gateway" |})
  /\
  createConfirmation
    (scripted (ok (Some {| confirmation_request_id := undefined |})) [] 0)
    sample_this sample_question boot
  = (Data undefined,
     snd (create_call
            (scripted (ok (Some {| confirmation_request_id := undefined |}))
               [] 0)
            sample_this sample_question boot)).
Proof.
  split; [|split; [|split; [|split]]].
  - apply (proj1 (create_phase_errors (scripted Rejects [] 0) sample_this 4
                    sample_question undefined boot)).
    reflexivity.
  - refine (proj1 (proj2 (create_phase_errors
                            (scripted (failure "quota" "Too Many Requests") [] 0)
                            sample_this 4 sample_question undefined boot))
              _ eq_refl _).
    discriminate.
  - exact (proj1 (proj2 (proj2 (create_phase_errors (scripted (ok None) [] 0)
                                  sample_this 4 sample_question undefined
                                  boot)))
             _ eq_refl eq_refl eq_refl).
  - exact (proj1 (proj2 (proj2 (create_phase_errors
                                  (scripted (failure_without_body "Bad Gateway")
                                     [] 0)
                                  sample_this 4 sample_question undefined
                                  boot)))
             _ eq_refl eq_refl eq_refl).
  - exact (proj1 (proj2 (proj2 (proj2 (create_phase_errors
             (scripted (ok (Some {| confirmation_request_id := undefined |}))
                [] 0)
             sample_this 4 sample_question undefined boot)))
             _ _ eq_refl eq_refl eq_refl)).
Defined.

(** ** The deadline *)

Lemma div1000 (x : Q) : x / 1000 == x * (1 # 1000).
Proof. reflexivity. Qed.

Lemma Qgtb_true (x y : Q) : Qgtb x y = true <-> y < x.
Proof.
  unfold Qgtb. rewrite negb_true_iff, <- not_true_iff_false, Qle_bool_iff.
  split; [apply Qnot_le_lt | apply Qlt_not_le].
Qed.

Lemma Qgtb_false (x y : Q) : Qgtb x y = false <-> x <= y.
Proof.
  unfold Qgtb. rewrite negb_false_iff. apply Qle_bool_iff.
Qed.

Lemma deadline_passed_true (T start : Q) (w : World) :
  deadline_passed (value (Num T)) (elapsed start w) = true
  <-> T < elapsed start w.
Proof. apply Qgtb_true. Qed.

Lemma deadline_passed_false (T start : Q) (w : World) :
  deadline_passed (value (Num T)) (elapsed start w) = false
  <-> elapsed start w <= T.
Proof. apply Qgtb_false. Qed.

Lemma elapsed_ms (start : Q) (w : World) :
  elapsed start w == (now w - start) * (1 # 1000).
Proof. unfold elapsed. apply div1000. Qed.

Lemma archimedes (x : Q) : exists n : nat, x < 3000 * inject_Z (Z.of_nat n).
Proof.
  exists (S (Z.to_nat (Qfloor x))).
  pose proof (Qlt_floor x) as H.
  rewrite Nat2Z.inj_succ. unfold Z.succ. rewrite inject_Z_plus.
  rewrite inject_Z_plus in H. change (inject_Z 1) with 1 in *.
  assert (Hn : 0 <= inject_Z (Z.of_nat (Z.to_nat (Qfloor x)))).
  { change 0 with (inject_Z 0). rewrite <- Zle_Qle. lia. }
  assert (Hf : inject_Z (Qfloor x)
               <= inject_Z (Z.of_nat (Z.to_nat (Qfloor x)))).
  { rewrite <- Zle_Qle. lia. }
  lra.
Qed.

Section Deadline.

Variable env : Env.
Variable this : WaitHuman.

Lemma late_turn (start : Q) (id : Nullable string) (T : Q) (w : World) :
  T < elapsed start w ->
  poll_turn env this start id (value (Num T)) w = timed_out_at env start w.
Proof.
  intros H. rewrite poll_turn_run.
  now replace (deadline_passed (value (Num T)) (elapsed start w)) with true
    by (symmetry; now apply deadline_passed_true).
Qed.

Lemma early_turn (start : Q) (id : Nullable string) (T : Q) (w w' : World)
    (e : WaitHumanError) :
  elapsed start w <= T ->
  poll_turn env this start id (value (Num T)) w = (Some (Err e), w') ->
  reason e <> timeout /\ w' = snd (poll_call env this id w).
Proof.
  intros H. rewrite poll_turn_run.
  replace (deadline_passed (value (Num T)) (elapsed start w)) with false
    by (symmetry; now apply deadline_passed_false).
  cbv zeta. destruct (fst (poll_call env this id w)) as [|f].
  - intros E; inversion E; subst. now split.
  - destruct (error f).
    + intros E; inversion E; subst. now split.
    + destruct (data f) as [[[a|]]|]; discriminate.
Qed.

(** When the deadline test cannot succeed the loop has no timeout exit. *)
Lemma no_deadline_turn (start : Q) (id : Nullable string) (T : Nullable JsNumber)
    (w w' : World) (e : WaitHumanError) :
  (forall x, deadline_passed T x = false) ->
  poll_turn env this start id T w = (Some (Err e), w') ->
  reason e <> timeout.
Proof.
  intros HT. rewrite poll_turn_run, HT.
  cbv zeta. destruct (fst (poll_call env this id w)) as [|f].
  - intros E; inversion E; subst. discriminate.
  - destruct (error f).
    + intros E; inversion E; subst. discriminate.
    + destruct (data f) as [[[a|]]|]; discriminate.
Qed.

Lemma no_deadline_loop (fuel : nat) (start : Q) (id : Nullable string)
    (T : Nullable JsNumber) (w w' : World) (e : WaitHumanError) :
  (forall x, deadline_passed T x = false) ->
  poll_loop env this fuel start id T w = (Some (Err e), w') ->
  reason e <> timeout.
Proof.
  intros HT. revert w; induction fuel as [|fuel IH]; intros w.
  - discriminate.
  - rewrite poll_loop_S.
    destruct (poll_turn env this start id T w) as [[res|] w1] eqn:Ht;
      cbn [fst snd].
    + intros E; inversion E; subst. eapply no_deadline_turn; eassumption.
    + apply IH.
Qed.

Lemma no_deadline_ask (fuel : nat) (q : ConfirmationQuestion)
    (options : Nullable AskOptions) (w w' : World) (e : WaitHumanError) :
  (forall x, deadline_passed (options_timeoutSeconds options) x = false) ->
  ask env this fuel q options w = (Some (Err e), w') ->
  reason e <> timeout.
Proof.
  intros HT. rewrite ask_run.
  destruct (fst (createConfirmation env this q w)) as [id|e0] eqn:Hc.
  - rewrite pollForAnswer_run. now apply no_deadline_loop.
  - intros E; inversion E; subst e0. rewrite createConfirmation_run in Hc.
    cbn [fst] in Hc. destruct (fst (create_call env this q w)) as [|f].
    + inversion Hc. discriminate.
    + destruct (error f), (data f); inversion Hc; discriminate.
Qed.

(** *** The loop reaches the timeout exit *)

Section Waiting.

Variable id : Nullable string.
Variable start T : Q.
Variables L G : Q.

Hypothesis never_answered :
  forall w, pending (fst (poll_call env this id w)).
Hypothesis latency : forall w, 0 <= took (on_get env w) <= L.
Hypothesis lag : forall w, 0 <= timer_lag env w <= G.

Lemma waiting_turn (w : World) :
  elapsed start w <= T ->
  exists w2,
    poll_turn env this start id (value (Num T)) w = (None, w2) /\
    now w + 3000 <= now w2 <= now w + (L + 3000 + G).
Proof.
  intros H. eexists. split.
  - apply pending_turn; [now apply deadline_passed_false | apply never_answered].
  - rewrite sleep_run. unfold poll_call. rewrite client_GET_run.
    cbn [now trace snd].
    match goal with
    | |- context [took (on_get env ?w1)] => pose proof (latency w1)
    end.
    match goal with
    | |- context [timer_lag env ?w1] => pose proof (lag w1)
    end.
    change (inject_Z pollIntervalMs) with 3000. lra.
Qed.

Lemma loop_times_out (n : nat) :
  forall w,
    T * 1000 - (now w - start) < 3000 * inject_Z (Z.of_nat n) ->
    exists fuel w',
      (forall k, poll_loop env this (fuel + k) start id (value (Num T)) w
                 = timed_out_at env start w') /\
      T < elapsed start w' /\
      (now w - start <= T * 1000 + (L + 3000 + G) ->
       elapsed start w' <= T + (L + 3000 + G) / 1000).
Proof.
  induction n as [|n IH]; intros w Hn.
  - exists 1%nat, w. assert (Hlate : T < elapsed start w).
    { rewrite elapsed_ms. change (inject_Z (Z.of_nat 0)) with 0 in Hn. lra. }
    split; [|split].
    + intros k. cbn [Nat.add]. rewrite poll_loop_S, late_turn by exact Hlate.
      reflexivity.
    + exact Hlate.
    + intros Hb. rewrite elapsed_ms, div1000. lra.
  - destruct (Qlt_le_dec T (elapsed start w)) as [Hlate | Hearly].
    + exists 1%nat, w. split; [|split].
      * intros k. cbn [Nat.add]. rewrite poll_loop_S, late_turn by exact Hlate.
        reflexivity.
      * exact Hlate.
      * intros Hb. rewrite elapsed_ms, div1000. lra.
    + destruct (waiting_turn w Hearly) as (w2 & Ht & Hclock).
      rewrite elapsed_ms in Hearly.
      rewrite Nat2Z.inj_succ in Hn. unfold Z.succ in Hn.
      rewrite inject_Z_plus in Hn. change (inject_Z 1) with 1 in Hn.
      destruct (IH w2) as (fuel & w' & Hrun & Hlow & Hup); [lra|].
      exists (S fuel), w'. split; [|split].
      * intros k. cbn [Nat.add]. rewrite poll_loop_S, Ht. apply Hrun.
      * exact Hlow.
      * intros _. apply Hup. lra.
Qed.

End Waiting.

Lemma early_turn_polls (start : Q) (id : Nullable string) (T : Q) (w : World) :
  elapsed start w <= T ->
  polls (snd (poll_turn env this start id (value (Num T)) w)) = S (polls w).
Proof.
  intros H. rewrite poll_turn_run.
  replace (deadline_passed (value (Num T)) (elapsed start w)) with false
    by (symmetry; now apply deadline_passed_false).
  cbv zeta. destruct (fst (poll_call env this id w)) as [|f]; [reflexivity|].
  destruct (error f); [reflexivity|].
  destruct (data f) as [[[a|]]|]; reflexivity.
Qed.

End Deadline.


(** C4, as stated, fails: with a deadline of 1 s and polls that take 10 s, no
    answer and no error, [ask] returns the timeout 13 s after the loop
    started, which is not within 3 s of the deadline. *)
Lemma timeout_later_than_one_interval :
  let env := scripted (created "c1") [] 10000 in
  let options := value {| timeoutSeconds := value (Num 1) |} in
  (forall w, pending (fst (poll_call env sample_this (value "c1") w))) /\
  createConfirmation env sample_this sample_question boot
  = (Data (value "c1"), {| now := 0 + 10000;
                   trace := [EvPOST (this_client sample_this)
                               "/confirmations/create" "key"
                               sample_question] |}) /\
  (forall k,
     fst (ask env sample_this (2 + k) sample_question options boot)
     = Some (Err {| reason := timeout;
                    description := Some "elapsed seconds: 13" |}) /\
     elapsed (0 + 10000)
       (snd (ask env sample_this (2 + k) sample_question options boot)) == 13) /\
  ~ 13 <= 1 + 3.
Proof.
  cbv zeta. split; [|split; [|split]].
  - intros w. apply scripted_pending.
  - reflexivity.
  - intros k. split; reflexivity.
  - intros H. vm_compute in H. now apply H.
Qed.

(** C4 (amended): with a finite deadline of [T] seconds, when every poll
    succeeds without an answer, a round trip takes between 0 and [L] ms and a
    timer fires between 0 and [G] ms late, [ask] returns the [timeout] error
    (for every sufficient number of turns), the elapsed time [e] it reports
    is more than [T], and for [T >= 0] it is at most
    [T + (L + 3000 + G) / 1000]: within 3 s of [T] when round trips take no
    time and timers fire on time.  The check is made at the top of a turn,
    before the poll call: when [e > T] the turn returns without issuing a
    request, and when [e <= T] (equality included) it issues the poll request
    and does not time out.  With [timeoutSeconds] undefined or null [ask]
    never returns [timeout]; nor does it for the numbers [Infinity] and
    [NaN], which no elapsed time exceeds. *)
Theorem deadline_spec (env : Env) (this : WaitHuman) :
  (forall q options id T L G w_init w0,
     options_timeoutSeconds options = value (Num T) ->
     createConfirmation env this q w_init = (Data id, w0) ->
     (forall w, pending (fst (poll_call env this id w))) ->
     (forall w, 0 <= took (on_get env w) <= L) ->
     (forall w, 0 <= timer_lag env w <= G) ->
     exists fuel w',
       (forall k, ask env this (fuel + k) q options w_init
                  = timed_out_at env (now w0) w') /\
       T < elapsed (now w0) w' /\
       (0 <= T -> elapsed (now w0) w' <= T + (L + 3000 + G) / 1000) /\
       (0 <= T -> L == 0 -> G == 0 -> elapsed (now w0) w' <= T + 3)) /\
  (forall start id T w,
     T < elapsed start w ->
     poll_turn env this start id (value (Num T)) w
     = timed_out_at env start w) /\
  (forall start id T w,
     elapsed start w <= T ->
     polls (snd (poll_turn env this start id (value (Num T)) w)) = S (polls w)
     /\ forall e,
          fst (poll_turn env this start id (value (Num T)) w) = Some (Err e) ->
          reason e <> timeout) /\
  (forall fuel q options w e w',
     options_timeoutSeconds options = undefined \/
     options_timeoutSeconds options = null ->
     ask env this fuel q options w = (Some (Err e), w') ->
     reason e <> timeout) /\
  (forall fuel q options w e w',
     options_timeoutSeconds options = value Infinity \/
     options_timeoutSeconds options = value NaN ->
     ask env this fuel q options w = (Some (Err e), w') ->
     reason e <> timeout).
Proof.
  split; [|split; [|split; [|split]]].
  - intros q options id T L G w_init w0 HT Hc Hp Hl Hg.
    destruct (archimedes (T * 1000 - (now w0 - now w0))) as [n Hn].
    destruct (loop_times_out env this id (now w0) T L G Hp Hl Hg n w0 Hn)
      as (fuel & w' & Hrun & Hlow & Hup).
    exists fuel, w'. split; [|split; [|split]].
    + intros k. rewrite (ask_polls _ _ _ _ _ _ _ _ Hc), HT. apply Hrun.
    + exact Hlow.
    + intros H0. apply Hup. pose proof (Hl w0). pose proof (Hg w0). lra.
    + intros H0 HL HG.
      assert (Hb : elapsed (now w0) w' <= T + (L + 3000 + G) / 1000).
      { apply Hup. pose proof (Hl w0). pose proof (Hg w0). lra. }
      rewrite div1000 in Hb. lra.
  - intros start id T w H. now apply late_turn.
  - intros start id T w H. split; [now apply early_turn_polls|].
    intros e He.
    destruct (poll_turn env this start id (value (Num T)) w) as [r w'] eqn:Ht.
    cbn [fst] in He. subst r.
    exact (proj1 (early_turn env this _ _ _ _ _ _ H Ht)).
  - intros fuel q options w e w' HT H.
    eapply no_deadline_ask; [|exact H].
    intros x. now destruct HT as [-> | ->].
  - intros fuel q options w e w' HT H.
    eapply no_deadline_ask; [|exact H].
    intros x. now destruct HT as [-> | ->].
Qed.

Lemma deadline_spec_witness :
  (exists fuel w',
     (forall k,
        ask (scripted (created "c1") [] 0) sample_this (fuel + k)
          sample_question (value {| timeoutSeconds := value (Num 4) |}) boot
        = timed_out_at (scripted (created "c1") [] 0) (0 + 0) w') /\
     4 < elapsed (0 + 0) w' /\
     elapsed (0 + 0) w' <= 4 + 3) /\
  poll_turn (scripted (created "c1") [] 0) sample_this 0 (value "c1") (value (Num 4))
    {| now := 6000; trace := [] |}
  = timed_out_at (scripted (created "c1") [] 0) 0 {| now := 6000; trace := [] |}
  /\
  polls (snd (poll_turn (scripted (created "c1") [] 0) sample_this 0 (value "c1")
                (value (Num 4)) {| now := 4000; trace := [] |})) = 1%nat /\
  reason {| reason := network_error; description := None |} <> timeout.
Proof.
  split; [|split; [|split]].
  - destruct (proj1 (deadline_spec (scripted (created "c1") [] 0) sample_this)
                sample_question (value {| timeoutSeconds := value (Num 4) |})
                (value "c1") 4 0 0 boot
                {| now := 0 + 0;
                   trace := [EvPOST (this_client sample_this)
                               "/confirmations/create" "key" sample_question] |}
                eq_refl eq_refl
                (scripted_pending (created "c1") 0 sample_this (value "c1"))
                (fun _ => conj (Qle_refl 0) (Qle_refl 0))
                (fun _ => conj (Qle_refl 0) (Qle_refl 0)))
      as (fuel & w' & Hrun & Hlow & _ & Hup).
    exists fuel, w'. split; [exact Hrun | split; [exact Hlow|]].
    apply Hup; [discriminate | reflexivity | reflexivity].
  - apply (proj1 (proj2 (deadline_spec (scripted (created "c1") [] 0)
                           sample_this))).
    reflexivity.
  - apply (proj1 (proj2 (proj2 (deadline_spec (scripted (created "c1") [] 0)
                                  sample_this)))).
    discriminate.
  - apply (proj1 (proj2 (proj2 (proj2
             (deadline_spec (scripted (created "c1") [Rejects] 0)
                sample_this)))) 3%nat sample_question undefined boot
             {| reason := network_error; description := None |}
             {| now := 0 + 0 + 0;
                trace := [EvGET (this_client sample_this)
                            "/confirmations/get/{confirmation_id}" (value "c1") false
                            "key";
                          EvPOST (this_client sample_this)
                            "/confirmations/create" "key" sample_question] |}).
    + now left.
    + reflexivity.
Defined.

(** ** The typed operations *)

Section Typed.

Variable env : Env.
Variable this : WaitHuman.

Lemma poll_turn_extends (start : Q) (id : Nullable string) (T : Nullable JsNumber)
    (w : World) :
  exists evs,
    trace (snd (poll_turn env this start id T w)) = (evs ++ trace w)%list.
Proof.
  rewrite poll_turn_run.
  destruct (deadline_passed T (elapsed start w)); [now exists []|].
  cbv zeta. destruct (fst (poll_call env this id w)) as [|f].
  - eexists [_]. reflexivity.
  - destruct (error f).
    + eexists [_]. reflexivity.
    + destruct (data f) as [[[a|]]|];
        try (eexists [_]; reflexivity); eexists [_; _]; reflexivity.
Qed.

Lemma poll_loop_extends (fuel : nat) (start : Q) (id : Nullable string)
    (T : Nullable JsNumber) (w : World) :
  exists evs,
    trace (snd (poll_loop env this fuel start id T w)) = (evs ++ trace w)%list.
Proof.
  revert w; induction fuel as [|fuel IH]; intros w.
  - now exists [].
  - rewrite poll_loop_S. destruct (poll_turn_extends start id T w) as [e1 H1].
    destruct (fst (poll_turn env this start id T w)).
    + now exists e1.
    + destruct (IH (snd (poll_turn env this start id T w))) as [e2 H2].
      exists (e2 ++ e1)%list. now rewrite H2, H1, app_assoc.
Qed.

(** Every run of [ask] starts with the creation request for its question. *)
Lemma ask_posts_question (fuel : nat) (q : ConfirmationQuestion)
    (options : Nullable AskOptions) (w : World) :
  exists evs,
    trace (snd (ask env this fuel q options w))
    = (evs ++ EvPOST (this_client this) "/confirmations/create"
                (this_apiKey this) q :: trace w)%list.
Proof.
  rewrite ask_run, createConfirmation_run. cbn [fst snd].
  match goal with |- context [match ?r with Data _ => _ | Err _ => _ end] =>
    destruct r as [id|e] end.
  - rewrite pollForAnswer_run.
    destruct (poll_loop_extends fuel (now (snd (create_call env this q w))) id
                (options_timeoutSeconds options)
                (snd (create_call env this q w))) as [evs H].
    exists evs. now rewrite H, create_call_trace.
  - exists []. apply create_call_trace.
Qed.

Lemma askFreeText_run (fuel : nat) (subject : string) (body : Nullable string)
    (options : Nullable AskOptions) (w : World) :
  let q := {| method := push; subject := subject; body := or_null body;
              answer_format := format_free_text |} in
  askFreeText env this fuel subject body options w
  = (match fst (ask env this fuel q options w) with
     | None => None
     | Some (Err e) => Some (Thrown (error_message e))
     | Some (Data d) =>
         match answer_content (answer d) with
         | content_free_text text => Some (Returned text)
         | c => Some (Thrown ("Unexpected answer type: " ++ content_type c
                              ++ ". Expected 'free_text'."))
         end
     end,
     snd (ask env this fuel q options w)).
Proof.
  cbv zeta. unfold askFreeText. rewrite bind_run.
  match goal with |- context [fst ?r] => destruct (fst r) as [[d|e]|] end;
    try reflexivity.
  now destruct (answer_content (answer d)).
Qed.

Lemma askMultipleChoice_run (fuel : nat) (subject : string)
    (choices : list string) (body : Nullable string)
    (options : Nullable AskOptions) (w : World) :
  let q := {| method := push; subject := subject; body := or_null body;
              answer_format := format_options choices false |} in
  askMultipleChoice env this fuel subject choices body options w
  = (match fst (ask env this fuel q options w) with
     | None => None
     | Some (Err e) => Some (Thrown (error_message e))
     | Some (Data d) =>
         match answer_content (answer d) with
         | content_options selected_indexes =>
             let invalid :=
               Thrown ("Invalid selected index received: "
                       ++ index_string env (nth_error selected_indexes 0)) in
             match nth_error selected_indexes 0 with
             | None => Some invalid
             | Some i =>
                 if ((i <? 0) || (Z.of_nat (List.length choices) <=? i))%Z
                 then Some invalid
                 else match array_get choices i with
                      | None => Some invalid
                      | Some choice => Some (Returned choice)
                      end
             end
         | c => Some (Thrown ("Unexpected answer type: " ++ content_type c
                              ++ ". Expected 'options'."))
         end
     end,
     snd (ask env this fuel q options w)).
Proof.
  cbv zeta. unfold askMultipleChoice. rewrite bind_run.
 
  match goal with |- context [fst ?r] => destruct (fst r) as [[d|e]|] end;
    try reflexivity.
  destruct (answer_content (answer d)) as [t|idx]; [reflexivity|].
  destruct (nth_error idx 0) as [i|]; [|reflexivity].
  destruct ((i <? 0) || (Z.of_nat (List.length choices) <=? i))%Z;
    [reflexivity|].
  now destruct (array_get choices i).
Qed.

Lemma array_get_in_range {A : Type} (l : list A) (i : Z) :
  (0 <= i < Z.of_nat (List.length l))%Z ->
  exists a, array_get l i = Some a /\ nth_error l (Z.to_nat i) = Some a.
Proof.
  intros H. unfold array_get.
  replace (i <? 0)%Z with false by (symmetry; apply Z.ltb_ge; lia).
  destruct (nth_error l (Z.to_nat i)) as [a|] eqn:E.
  - now exists a.
  - apply nth_error_None in E. lia.
Qed.

Lemma ask_result (fuel : nat) (q : ConfirmationQuestion)
    (options : Nullable AskOptions) (w w' : World)
    (r : option (Result ConfirmationAnswer)) :
  ask env this fuel q options w = (r, w') ->
  fst (ask env this fuel q options w) = r /\
  snd (ask env this fuel q options w) = w'.
Proof. intros ->. now split. Qed.

(** C5: [askMultipleChoice] posts a question whose answer format is the
    options format with the given choices and [multiple: false]; when the
    engine succeeds with an options answer whose first selected index [i] is
    within the choices, it returns [choices[i]] whatever indexes follow; for
    the choices a, b, c and the selection [1] it returns b. *)
Theorem askMultipleChoice_returns_choice (fuel : nat) (subject : string)
    (choices : list string) (body : Nullable string)
    (options : Nullable AskOptions) (w : World) :
  let q := {| method := push; subject := subject; body := or_null body;
              answer_format := format_options choices false |} in
  (exists evs,
     trace (snd (askMultipleChoice env this fuel subject choices body options w))
     = (evs ++ EvPOST (this_client this) "/confirmations/create"
                 (this_apiKey this) q :: trace w)%list) /\
  (forall d i rest w',
     ask env this fuel q options w = (Some (Data d), w') ->
     answer_content (answer d) = content_options (i :: rest) ->
     (0 <= i < Z.of_nat (List.length choices))%Z ->
     exists c,
       nth_error choices (Z.to_nat i) = Some c /\
       askMultipleChoice env this fuel subject choices body options w
       = (Some (Returned c), w')) /\
  (forall d w',
     choices = ["a"; "b"; "c"] ->
     ask env this fuel q options w = (Some (Data d), w') ->
     answer_content (answer d) = content_options [1%Z] ->
     askMultipleChoice env this fuel subject choices body options w
     = (Some (Returned "b"), w')).
Proof.
  intros q.
  assert (Hgen : forall d i rest w',
     ask env this fuel q options w = (Some (Data d), w') ->
     answer_content (answer d) = content_options (i :: rest) ->
     (0 <= i < Z.of_nat (List.length choices))%Z ->
     exists c,
       nth_error choices (Z.to_nat i) = Some c /\
       askMultipleChoice env this fuel subject choices body options w
       = (Some (Returned c), w')).
  { intros d i rest w' Ha Hc Hi.
    destruct (array_get_in_range choices i Hi) as (c & Hg & Hn).
    exists c. split; [exact Hn|].
    rewrite askMultipleChoice_run. fold q.
    destruct (ask_result _ _ _ _ _ _ Ha) as [-> ->]. rewrite Hc.
    cbn [nth_error]. cbv zeta.
    replace ((i <? 0) || (Z.of_nat (List.length choices) <=? i))%Z with false
      by (symmetry; apply orb_false_iff; split;
          [apply Z.ltb_ge | apply Z.leb_gt]; lia).
    now rewrite Hg. }
  split; [|split].
  - rewrite askMultipleChoice_run. cbn [snd]. apply ask_posts_question.
  - exact Hgen.
  - intros d w' Hch Ha Hc.
    destruct (Hgen d 1%Z [] w' Ha Hc) as (c & Hn & Hr).
    + rewrite Hch. cbn. lia.
    + rewrite Hch in Hn. cbn in Hn. inversion Hn; subst c. exact Hr.
Qed.

(** C6: when the engine succeeds with an options answer whose list of
    selected indexes is empty, or starts with a negative index or one that is
    not below the number of choices, [askMultipleChoice] throws the error
    that names the index ([undefined] for the empty list); it returns no
    value. *)
Theorem askMultipleChoice_invalid_index (fuel : nat) (subject : string)
    (choices : list string) (body : Nullable string)
    (options : Nullable AskOptions) (w w' : World) (d : ConfirmationAnswer)
    (idxs : list Z) :
  let q := {| method := push; subject := subject; body := or_null body;
              answer_format := format_options choices false |} in
  ask env this fuel q options w = (Some (Data d), w') ->
  answer_content (answer d) = content_options idxs ->
  (idxs = [] \/
   exists i rest, idxs = i :: rest /\
                  (i < 0 \/ Z.of_nat (List.length choices) <= i)%Z) ->
  askMultipleChoice env this fuel subject choices body options w
  = (Some (Thrown ("Invalid selected index received: "
                   ++ match idxs with
                      | [] => "undefined"
                      | i :: _ => toString env (inject_Z i)
                      end)), w') /\
  forall v, askMultipleChoice env this fuel subject choices body options w
            <> (Some (Returned v), w').
Proof.
  intros q Ha Hc Hi.
  assert (Hthrow :
    askMultipleChoice env this fuel subject choices body options w
    = (Some (Thrown ("Invalid selected index received: "
                     ++ match idxs with
                        | [] => "undefined"
                        | i :: _ => toString env (inject_Z i)
                        end)), w')).
  { rewrite askMultipleChoice_run. fold q.
    destruct (ask_result _ _ _ _ _ _ Ha) as [-> ->]. rewrite Hc.
    destruct Hi as [-> | (i & rest & -> & Hi)]; [reflexivity|].
    cbn [nth_error]. cbv zeta.
    replace ((i <? 0) || (Z.of_nat (List.length choices) <=? i))%Z with true
      by (symmetry; apply orb_true_iff; destruct Hi;
          [left; apply Z.ltb_lt | right; apply Z.leb_le]; lia).
    reflexivity. }
  split; [exact Hthrow|]. intros v. rewrite Hthrow. discriminate.
Qed.

(** C7: [askFreeText] throws when the engine returns an error, the message
    holding the reason and the description (nothing for a missing one); when
    the engine succeeds it returns the text if the answer content is free
    text, and otherwise throws the error that reports the type received.  It
    returns a value only in the free-text case.  (An options content has no
    text to read in the first place.) *)
Theorem askFreeText_spec (fuel : nat) (subject : string)
    (body : Nullable string) (options : Nullable AskOptions) (w w' : World) :
  let q := {| method := push; subject := subject; body := or_null body;
              answer_format := format_free_text |} in
  (forall e,
     ask env this fuel q options w = (Some (Err e), w') ->
     askFreeText env this fuel subject body options w
     = (Some (Thrown ("WaitHuman Error: " ++ reason_string (reason e) ++ " "
                      ++ match description e with
                         | Some text => text
                         | None => ""
                         end)), w')) /\
  (forall d text,
     ask env this fuel q options w = (Some (Data d), w') ->
     answer_content (answer d) = content_free_text text ->
     askFreeText env this fuel subject body options w
     = (Some (Returned text), w')) /\
  (forall d idxs,
     ask env this fuel q options w = (Some (Data d), w') ->
     answer_content (answer d) = content_options idxs ->
     askFreeText env this fuel subject body options w
     = (Some (Thrown "Unexpected answer type: options. Expected 'free_text'."),
        w')) /\
  (forall v,
     askFreeText env this fuel subject body options w = (Some (Returned v), w')
     <-> exists d,
           ask env this fuel q options w = (Some (Data d), w') /\
           answer_content (answer d) = content_free_text v).
Proof.
  intros q. split; [|split; [|split]].
  - intros e Ha. rewrite askFreeText_run. fold q.
    now destruct (ask_result _ _ _ _ _ _ Ha) as [-> ->].
  - intros d text Ha Hc. rewrite askFreeText_run. fold q.
    destruct (ask_result _ _ _ _ _ _ Ha) as [-> ->]. now rewrite Hc.
  - intros d idxs Ha Hc. rewrite askFreeText_run. fold q.
    destruct (ask_result _ _ _ _ _ _ Ha) as [-> ->]. now rewrite Hc.
  - intros v. rewrite askFreeText_run. fold q.
    destruct (ask env this fuel q options w) as [r w1]. cbn [fst snd]. split.
    + destruct r as [[d|e]|]; try discriminate.
      destruct (answer_content (answer d)) as [t|idxs] eqn:Hc;
        try discriminate.
      intros E; inversion E; subst. now exists d.
    + intros (d & E & Hc). inversion E; subst. now rewrite Hc.
Qed.

End Typed.

Lemma askMultipleChoice_returns_choice_witness :
  fst (askMultipleChoice
         (scripted (created "c1") [answer_with (content_options [1%Z])] 0)
         sample_this 1 "Pick one" ["a"; "b"; "c"] undefined undefined boot)
  = Some (Returned "b") /\
  fst (askMultipleChoice
         (scripted (created "c1") [answer_with (content_options [2; 0]%Z)] 0)
         sample_this 1 "Pick one" ["a"; "b"; "c"] undefined undefined boot)
  = Some (Returned "c").
Proof.
  split.
  - refine (f_equal fst
              (proj2 (proj2 (askMultipleChoice_returns_choice
                               (scripted (created "c1")
                                  [answer_with (content_options [1%Z])] 0)
                               sample_this 1 "Pick one" ["a"; "b"; "c"]
                               undefined undefined boot))
                 _ _ eq_refl eq_refl eq_refl)).
  - destruct (proj1 (proj2 (askMultipleChoice_returns_choice
                              (scripted (created "c1")
                                 [answer_with (content_options [2; 0]%Z)] 0)
                              sample_this 1 "Pick one" ["a"; "b"; "c"]
                              undefined undefined boot))
                _ 2%Z [0%Z] _ eq_refl eq_refl)
      as (c & Hn & Hr).
    + cbn. lia.
    + cbn in Hn. inversion Hn; subst c. now rewrite Hr.
Defined.

Lemma askMultipleChoice_invalid_index_witness :
  fst (askMultipleChoice
         (scripted (created "c1") [answer_with (content_options [5%Z])] 0)
         sample_this 1 "Pick one" ["a"; "b"; "c"] undefined undefined boot)
  = Some (Thrown "Invalid selected index received: 5") /\
  fst (askMultipleChoice
         (scripted (created "c1") [answer_with (content_options [])] 0)
         sample_this 1 "Pick one" ["a"; "b"; "c"] undefined undefined boot)
  = Some (Thrown "Invalid selected index received: undefined").
Proof.
  split.
  - refine (f_equal fst
              (proj1 (askMultipleChoice_invalid_index
                        (scripted (created "c1")
                           [answer_with (content_options [5%Z])] 0)
                        sample_this 1 "Pick one" ["a"; "b"; "c"] undefined
                        undefined boot _ _ [5%Z] eq_refl eq_refl _))).
    right. exists 5%Z, []. split; [reflexivity | right; cbn; lia].
  - refine (f_equal fst
              (proj1 (askMultipleChoice_invalid_index
                        (scripted (created "c1")
                           [answer_with (content_options [])] 0)
                        sample_this 1 "Pick one" ["a"; "b"; "c"] undefined
                        undefined boot _ _ [] eq_refl eq_refl _))).
    now left.
Defined.

Lemma askFreeText_spec_witness :
  fst (askFreeText (scripted (failure "quota" "Too Many Requests") [] 0)
         sample_this 1 "Why?" undefined undefined boot)
  = Some (Thrown "WaitHuman Error: create_failed Too Many Requests") /\
  fst (askFreeText
         (scripted (created "c1") [answer_with (content_free_text "because")] 0)
         sample_this 1 "Why?" undefined undefined boot)
  = Some (Returned "because") /\
  fst (askFreeText
         (scripted (created "c1") [answer_with (content_options [0%Z])] 0)
         sample_this 1 "Why?" undefined undefined boot)
  = Some (Thrown "Unexpected answer type: options. Expected 'free_text'.").
Proof.
  split; [|split].
  - refine (f_equal fst
              (proj1 (askFreeText_spec
                        (scripted (failure "quota" "Too Many Requests") [] 0)
                        sample_this 1 "Why?" undefined undefined boot _)
                 _ eq_refl)).
  - refine (f_equal fst
              (proj1 (proj2 (askFreeText_spec
                               (scripted (created "c1")
                                  [answer_with (content_free_text "because")] 0)
                               sample_this 1 "Why?" undefined undefined boot _))
                 _ _ eq_refl eq_refl)).
  - refine (f_equal fst
              (proj1 (proj2 (proj2 (askFreeText_spec
                                      (scripted (created "c1")
                                         [answer_with (content_options [0%Z])] 0)
                                      sample_this 1 "Why?" undefined undefined
                                      boot _)))
                 _ _ eq_refl eq_refl)).
Defined.

(** * Further properties *)

(** ** The shape of the trace *)

Section Traces.

Variable env : Env.
Variable this : WaitHuman.

Lemma rounds_shift (id : Nullable string) (n : nat) (l : list Event) :
  (rounds this id n ++ timer_event :: poll_event this id :: l)%list
  = (timer_event :: poll_event this id :: rounds this id n ++ l)%list.
Proof.
  induction n as [|n IH]; [reflexivity|].
  cbn [rounds app]. now rewrite IH.
Qed.

(** What one turn does to the world, by the way it ends. *)
Lemma poll_turn_shape (start : Q) (id : Nullable string) (T : Nullable JsNumber)
    (w : World) :
  let r := fst (poll_turn env this start id T w) in
  let w' := snd (poll_turn env this start id T w) in
  match r with
  | None =>
      deadline_passed T (elapsed start w) = false /\
      w' = snd (sleep env pollIntervalMs (snd (poll_call env this id w)))
  | Some res =>
      if polled_last r then
        deadline_passed T (elapsed start w) = false /\
        w' = snd (poll_call env this id w)
      else
        deadline_passed T (elapsed start w) = true /\ w' = w
  end.
Proof.
  cbv zeta. rewrite poll_turn_run.
  destruct (deadline_passed T (elapsed start w)); [now split|].
  cbv zeta. destruct (fst (poll_call env this id w)) as [|f]; [now split|].
  destruct (error f); [now split|].
  destruct (data f) as [[[a|]]|]; now split.
Qed.

Lemma poll_loop_shape (fuel : nat) (start : Q) (id : Nullable string)
    (T : Nullable JsNumber) (w : World) :
  let r := fst (poll_loop env this fuel start id T w) in
  let w' := snd (poll_loop env this fuel start id T w) in
  exists n,
    (n <= fuel)%nat /\
    (r = None -> n = fuel) /\
    (r <> None -> n < fuel)%nat /\
    trace w' = (loop_events this id r n ++ trace w)%list.
Proof.
  cbv zeta. revert w; induction fuel as [|fuel IH]; intros w.
  - exists 0%nat. cbn. repeat split; [lia | congruence].
  - rewrite poll_loop_S. pose proof (poll_turn_shape start id T w) as Hs.
    cbv zeta in Hs.
    destruct (fst (poll_turn env this start id T w)) as [res|] eqn:Hr.
    + exists 0%nat. cbn [fst snd]. repeat split; try lia; try congruence.
      unfold loop_events.
      destruct (polled_last (Some res)); destruct Hs as [_ ->]; reflexivity.
    + destruct Hs as [_ Hw].
      destruct (IH (snd (poll_turn env this start id T w)))
        as (n & Hle & Hnone & Hsome & Htr).
      exists (S n). repeat split.
      * lia.
      * intros E. now rewrite Hnone.
      * intros E. specialize (Hsome E). lia.
      * rewrite Htr, Hw. unfold loop_events. rewrite <- !app_assoc.
        f_equal. apply rounds_shift.
Qed.

Lemma polls_app (evs : list Event) (w w' : World) :
  trace w' = (evs ++ trace w)%list ->
  polls w' = (List.length (filter is_GET evs) + polls w)%nat.
Proof.
  intros H. unfold polls. now rewrite H, filter_app, List.length_app.
Qed.

Lemma timers_app (evs : list Event) (w w' : World) :
  trace w' = (evs ++ trace w)%list ->
  timers w' = (List.length (filter is_timer evs) + timers w)%nat.
Proof.
  intros H. unfold timers. now rewrite H, filter_app, List.length_app.
Qed.

Lemma posts_app (evs : list Event) (w w' : World) :
  trace w' = (evs ++ trace w)%list ->
  posts w' = (List.length (filter is_POST evs) + posts w)%nat.
Proof.
  intros H. unfold posts. now rewrite H, filter_app, List.length_app.
Qed.

Lemma rounds_counts (id : Nullable string) (n : nat) :
  List.length (filter is_GET (rounds this id n)) = n /\
  List.length (filter is_timer (rounds this id n)) = n /\
  List.length (filter is_POST (rounds this id n)) = 0%nat.
Proof.
  induction n as [|n (Hg & Ht & Hp)]; [now repeat split|].
  cbn. now rewrite Hg, Ht, Hp.
Qed.

Lemma loop_events_counts (id : Nullable string)
    (r : option (Result ConfirmationAnswer)) (n : nat) :
  List.length (filter is_GET (loop_events this id r n))
  = ((if polled_last r then 1 else 0) + n)%nat /\
  List.length (filter is_timer (loop_events this id r n)) = n /\
  List.length (filter is_POST (loop_events this id r n)) = 0%nat.
Proof.
  destruct (rounds_counts id n) as (Hg & Ht & Hp).
  unfold loop_events. rewrite !filter_app, !List.length_app, Hg, Ht, Hp.
  now destruct (polled_last r).
Qed.

Lemma createConfirmation_trace (q : ConfirmationQuestion) (w : World) :
  trace (snd (createConfirmation env this q w)) = create_event this q :: trace w.
Proof. rewrite createConfirmation_run. apply create_call_trace. Qed.

Lemma ask_success_shape (fuel : nat) (q : ConfirmationQuestion)
    (options : Nullable AskOptions) (w : World) (id : Nullable string) :
  fst (createConfirmation env this q w) = Data id ->
  exists n,
    (n <= fuel)%nat /\
    (fst (ask env this fuel q options w) = None -> n = fuel) /\
    (fst (ask env this fuel q options w) <> None -> n < fuel)%nat /\
    trace (snd (ask env this fuel q options w))
    = (loop_events this id (fst (ask env this fuel q options w)) n
       ++ create_event this q :: trace w)%list.
Proof.
  intros Hc. rewrite ask_run, Hc, pollForAnswer_run.
  rewrite <- (createConfirmation_trace q w). apply poll_loop_shape.
Qed.

Lemma ask_failure_shape (fuel : nat) (q : ConfirmationQuestion)
    (options : Nullable AskOptions) (w : World) (e : WaitHumanError) :
  fst (createConfirmation env this q w) = Err e ->
  fst (ask env this fuel q options w) = Some (Err e) /\
  trace (snd (ask env this fuel q options w)) = create_event this q :: trace w.
Proof.
  intros Hc. rewrite ask_run, Hc. split; [reflexivity|].
  apply createConfirmation_trace.
Qed.

(** X2: the calls of one [ask], by the way it ends.  A failed creation leaves
    the POST alone.  Otherwise the POST is followed by [n] turns that went
    round (a poll request for the identifier the creation returned, with
    [long_poll: false] and the instance's key, then the 3000 ms timer) and,
    unless [ask] returns the timeout error, by the poll request of the turn
    that returned.  While the loop is still running [n] is the number of
    turns it was given. *)
Theorem ask_trace (fuel : nat) (q : ConfirmationQuestion)
    (options : Nullable AskOptions) (w : World) :
  let r := fst (ask env this fuel q options w) in
  let w' := snd (ask env this fuel q options w) in
  match fst (createConfirmation env this q w) with
  | Err e => r = Some (Err e) /\ trace w' = create_event this q :: trace w
  | Data id =>
      exists n,
        (n <= fuel)%nat /\
        (r = None -> n = fuel) /\
        (r <> None -> n < fuel)%nat /\
        trace w'
        = (loop_events this id r n ++ create_event this q :: trace w)%list
  end.
Proof.
  cbv zeta.
  destruct (fst (createConfirmation env this q w)) as [id|e] eqn:Hc.
  - now apply ask_success_shape.
  - now apply ask_failure_shape.
Qed.

(** X3: every [ask] issues exactly one creation request, whatever the world
    it starts in and however it ends; it arms at most one timer per turn, and
    the poll requests are as many as the timers or one more.  An answer is
    never returned without a poll request after the last timer, and the
    timeout error is never returned right after one. *)
Theorem ask_counts (fuel : nat) (q : ConfirmationQuestion)
    (options : Nullable AskOptions) (w : World) :
  let r := fst (ask env this fuel q options w) in
  let w' := snd (ask env this fuel q options w) in
  posts w' = S (posts w) /\
  exists n,
    (n <= fuel)%nat /\
    timers w' = (timers w + n)%nat /\
    (polls w' = (polls w + n)%nat \/ polls w' = (polls w + n + 1)%nat) /\
    (forall a, r = Some (Data a) -> polls w' = (polls w + n + 1)%nat) /\
    (forall e, r = Some (Err e) -> reason e = timeout ->
               polls w' = (polls w + n)%nat) /\
    (r = None -> n = fuel /\ polls w' = (polls w + fuel)%nat).
Proof.
  cbv zeta.
  destruct (fst (createConfirmation env this q w)) as [id|e0] eqn:Hc.
  - destruct (ask_success_shape fuel q options w id Hc)
      as (n & Hle & Hnone & _ & Htr).
    set (r := fst (ask env this fuel q options w)) in *.
    destruct (loop_events_counts id r n) as (Hg & Hti & Hp).
    assert (Hpolls : polls (snd (ask env this fuel q options w))
                     = ((if polled_last r then 1 else 0) + n + polls w)%nat).
    { rewrite (polls_app (loop_events this id r n ++ [create_event this q])
                 w _) by (now rewrite <- app_assoc).
      rewrite filter_app, List.length_app, Hg. cbn. lia. }
    split.
    + rewrite (posts_app (loop_events this id r n ++ [create_event this q])
                 w _) by (now rewrite <- app_assoc).
      rewrite filter_app, List.length_app, Hp. reflexivity.
    + exists n. split; [exact Hle|]. split; [|split; [|split; [|split]]].
      * rewrite (timers_app (loop_events this id r n ++ [create_event this q])
                   w _) by (now rewrite <- app_assoc).
        rewrite filter_app, List.length_app, Hti. cbn. lia.
      * rewrite Hpolls. destruct (polled_last r); [right | left]; lia.
      * intros a Hr. rewrite Hpolls, Hr. cbn. lia.
      * intros e Hr He. rewrite Hpolls, Hr. cbn. rewrite He. lia.
      * intros Hr. split; [now apply Hnone|].
        rewrite Hpolls, Hr, (Hnone Hr). cbn. lia.
  - destruct (ask_failure_shape fuel q options w e0 Hc) as [Hr Htr].
    set (w' := snd (ask env this fuel q options w)) in *.
    split.
    + now rewrite (posts_app [create_event this q] w w').
    + exists 0%nat. split; [lia|]. split; [|split; [|split; [|split]]].
      * rewrite (timers_app [create_event this q] w w') by exact Htr.
        cbn. lia.
      * left. rewrite (polls_app [create_event this q] w w') by exact Htr.
        cbn. lia.
      * intros a Ha. rewrite Hr in Ha. discriminate.
      * intros e _ _.
        rewrite (polls_app [create_event this q] w w') by exact Htr.
        cbn. lia.
      * intros Hn. rewrite Hr in Hn. discriminate.
Qed.

(** X1: at any turn (after [n] turns that went round), when the deadline has
    not passed at the top of the turn and the poll response carries an
    answer, [ask] returns that answer in the world the poll call leaves, for
    every larger number of turns allowed.  The deadline is not looked at
    again once the request is out: however long the poll call takes, the
    answer is returned. *)
Theorem ask_answered (n k : nat) (q : ConfirmationQuestion)
    (options : Nullable AskOptions) (id : Nullable string) (a : ConfirmationAnswer)
    (w_init w0 w : World) :
  let T := options_timeoutSeconds options in
  createConfirmation env this q w_init = (Data id, w0) ->
  poll_loop env this n (now w0) id T w0 = (None, w) ->
  deadline_passed T (elapsed (now w0) w) = false ->
  answered (fst (poll_call env this id w)) a ->
  ask env this (n + S k) q options w_init
  = (Some (Data a), snd (poll_call env this id w)).
Proof.
  intros T Hc Hn Hd (f & Hf & He & Hb).
  rewrite (ask_polls _ _ _ _ _ _ _ _ Hc). fold T.
  rewrite (poll_loop_resume _ _ _ (S k) _ _ _ _ _ Hn), poll_loop_S,
    poll_turn_run, Hd.
  cbv zeta. now rewrite Hf, He, Hb.
Qed.

(** X4: with a deadline below zero ([NegInfinity] included) the first
    deadline check of the loop already fails, whatever the start timestamp
    is, the clock not having run backwards since it was read: the loop
    returns the timeout error in the world it started in.  So after a
    successful creation [ask] returns the timeout error having issued no
    poll request and armed no timer. *)
Theorem ask_negative_deadline (k : nat) (q : ConfirmationQuestion)
    (options : Nullable AskOptions) (id : Nullable string) (w w0 : World) :
  (options_timeoutSeconds options = value NegInfinity \/
   exists T, options_timeoutSeconds options = value (Num T) /\ T < 0) ->
  (forall start w1,
     start <= now w1 ->
     exists e,
       poll_loop env this (S k) start id (options_timeoutSeconds options) w1
       = (Some (Err e), w1) /\
       reason e = timeout) /\
  (createConfirmation env this q w = (Data id, w0) ->
   exists e,
     ask env this (S k) q options w = (Some (Err e), w0) /\
     reason e = timeout /\
     polls w0 = polls w /\ timers w0 = timers w).
Proof.
  intros HT.
  assert (Hloop : forall start w1,
    start <= now w1 ->
    exists e,
      poll_loop env this (S k) start id (options_timeoutSeconds options) w1
      = (Some (Err e), w1) /\
      reason e = timeout).
  { intros start w1 Hclock.
    assert (Hd : deadline_passed (options_timeoutSeconds options)
                   (elapsed start w1) = true).
    { destruct HT as [-> | (T & -> & HT)]; [reflexivity|].
      apply deadline_passed_true. rewrite elapsed_ms. lra. }
    eexists. split.
    - rewrite poll_loop_S, poll_turn_run, Hd. reflexivity.
    - reflexivity. }
  split; [exact Hloop|].
  intros Hc.
  assert (Htr : trace w0 = create_event this q :: trace w).
  { pose proof (createConfirmation_trace q w) as H. now rewrite Hc in H. }
  destruct (Hloop (now w0) w0 (Qle_refl _)) as (e & He & Hr).
  exists e. split; [|split; [exact Hr|split]].
  - now rewrite (ask_polls _ _ _ _ _ _ _ _ Hc).
  - now rewrite (polls_app [create_event this q] w w0).
  - now rewrite (timers_app [create_event this q] w w0).
Qed.

End Traces.

(** ** The pace of the loop *)

Lemma inject_nat_S (n : nat) :
  inject_Z (Z.of_nat (S n)) == inject_Z (Z.of_nat n) + 1.
Proof.
  rewrite Nat2Z.inj_succ. unfold Z.succ. now rewrite inject_Z_plus.
Qed.

Section Pace.

Variable env : Env.
Variable this : WaitHuman.

Hypothesis latency : forall w, 0 <= took (on_get env w).
Hypothesis lag : forall w, 0 <= timer_lag env w.

Lemma poll_call_polls (id : Nullable string) (w : World) :
  polls (snd (poll_call env this id w)) = S (polls w).
Proof. reflexivity. Qed.

Lemma poll_call_clock (id : Nullable string) (w : World) :
  now w <= now (snd (poll_call env this id w)).
Proof.
  unfold poll_call. rewrite client_GET_run. cbn [now snd].
  match goal with
  | |- context [took (on_get env ?w1)] => pose proof (latency w1)
  end.
  lra.
Qed.

Lemma round_polls (id : Nullable string) (w : World) :
  polls (snd (sleep env pollIntervalMs (snd (poll_call env this id w))))
  = S (polls w).
Proof. reflexivity. Qed.

Lemma round_timers (id : Nullable string) (w : World) :
  timers (snd (sleep env pollIntervalMs (snd (poll_call env this id w))))
  = S (timers w).
Proof. reflexivity. Qed.

Lemma round_clock (id : Nullable string) (w : World) :
  now w + 3000
  <= now (snd (sleep env pollIntervalMs (snd (poll_call env this id w)))).
Proof.
  rewrite sleep_run. unfold poll_call. rewrite client_GET_run.
  cbn [now trace snd].
  match goal with
  | |- context [took (on_get env ?w1)] => pose proof (latency w1)
  end.
  match goal with
  | |- context [timer_lag env ?w1] => pose proof (lag w1)
  end.
  change (inject_Z pollIntervalMs) with 3000. lra.
Qed.

(** [c] turns of 3000 ms lie behind the loop: it polls only while they fit
    in the deadline. *)
Lemma poll_loop_pace (T start : Q) (id : Nullable string) (fuel : nat) :
  forall (w : World) (c : Q),
    3000 * c <= now w - start ->
    let w' := snd (poll_loop env this fuel start id (value (Num T)) w) in
    polls w' = polls w \/
    3000 * (c + inject_Z (Z.of_nat (polls w'))
              - inject_Z (Z.of_nat (polls w)))
    <= T * 1000 + 3000.
Proof.
  induction fuel as [|fuel IH]; intros w c Hc; cbv zeta.
  - now left.
  - rewrite poll_loop_S.
    pose proof (poll_turn_shape env this start id (value (Num T)) w) as Hs.
    cbv zeta in Hs.
    destruct (fst (poll_turn env this start id (value (Num T)) w))
      as [res|] eqn:Hr; cbn [snd].
    + destruct (polled_last (Some res)); destruct Hs as [Hd ->].
      * right. apply deadline_passed_false in Hd. rewrite elapsed_ms in Hd.
        rewrite poll_call_polls, inject_nat_S. lra.
      * now left.
    + destruct Hs as [Hd Hw]. apply deadline_passed_false in Hd.
      rewrite elapsed_ms in Hd. right.
      pose proof (round_clock id w) as Hclock.
      pose proof (round_polls id w) as Hpolls.
      rewrite <- Hw in Hclock, Hpolls.
      destruct (IH (snd (poll_turn env this start id (value (Num T)) w))
                  (c + 1)) as [Hsame | Hbound]; [lra | |].
      * rewrite Hsame, Hpolls, inject_nat_S. lra.
      * rewrite Hpolls, inject_nat_S in Hbound. lra.
Qed.

(** Each timer armed costs at least 3000 ms. *)
Lemma poll_loop_duration (T : Nullable JsNumber) (start : Q) (id : Nullable string)
    (fuel : nat) :
  forall w : World,
    let w' := snd (poll_loop env this fuel start id T w) in
    now w + 3000 * (inject_Z (Z.of_nat (timers w'))
                    - inject_Z (Z.of_nat (timers w)))
    <= now w'.
Proof.
  induction fuel as [|fuel IH]; intros w; cbv zeta.
  - cbn [poll_loop ret snd]. lra.
  - rewrite poll_loop_S.
    pose proof (poll_turn_shape env this start id T w) as Hs. cbv zeta in Hs.
    destruct (fst (poll_turn env this start id T w)) as [res|] eqn:Hr;
      cbn [snd].
    + destruct (polled_last (Some res)); destruct Hs as [_ ->].
      * pose proof (poll_call_clock id w).
        change (timers (snd (poll_call env this id w))) with (timers w). lra.
      * lra.
    + destruct Hs as [_ Hw].
      pose proof (round_clock id w) as Hclock.
      pose proof (round_timers id w) as Htimers.
      rewrite <- Hw in Hclock, Htimers.
      specialize (IH (snd (poll_turn env this start id T w))).
      cbv zeta in IH. rewrite Htimers, inject_nat_S in IH. lra.
Qed.

Lemma poll_loop_pending (T : Nullable JsNumber) (start : Q) (id : Nullable string)
    (fuel : nat) :
  (forall x, deadline_passed T x = false) ->
  (forall w, pending (fst (poll_call env this id w))) ->
  forall w, fst (poll_loop env this fuel start id T w) = None.
Proof.
  intros HT Hp. induction fuel as [|fuel IH]; intros w; [reflexivity|].
  rewrite poll_loop_S, (pending_turn env this start id T w (HT _) (Hp w)).
  cbn [fst snd]. apply IH.
Qed.

(** X5: with a finite deadline of [T] seconds, round trips and timer lags
    that are not negative, an [ask] whose creation succeeded issues no poll
    request at all, or at most [T / 3 + 1] of them: a poll request goes out
    only while the 3000 ms turns already made fit in the deadline. *)
Theorem polls_bounded_by_deadline (fuel : nat) (q : ConfirmationQuestion)
    (options : Nullable AskOptions) (id : Nullable string) (T : Q) (w w0 : World) :
  options_timeoutSeconds options = value (Num T) ->
  createConfirmation env this q w = (Data id, w0) ->
  let w' := snd (ask env this fuel q options w) in
  polls w' = polls w \/
  3 * (inject_Z (Z.of_nat (polls w')) - inject_Z (Z.of_nat (polls w)))
  <= T + 3.
Proof.
  intros HT Hc. cbv zeta. rewrite (ask_polls _ _ _ _ _ _ _ _ Hc), HT.
  assert (Hp0 : polls w0 = polls w).
  { pose proof (createConfirmation_trace env this q w) as Htr.
    rewrite Hc in Htr. cbn [snd] in Htr.
    now rewrite (polls_app [create_event this q] w w0). }
  destruct (poll_loop_pace T (now w0) id fuel w0 0) as [Hsame | Hbound];
    [lra | |].
  - left. now rewrite Hsame.
  - right. rewrite Hp0 in Hbound. lra.
Qed.

(** X6: when [ask] stops (or is stopped) after arming [n] timers since the
    creation returned, at least [3000 * n] ms have passed since then, round
    trips and timer lags not being negative. *)
Theorem ask_duration (fuel : nat) (q : ConfirmationQuestion)
    (options : Nullable AskOptions) (id : Nullable string) (w w0 : World) :
  createConfirmation env this q w = (Data id, w0) ->
  let w' := snd (ask env this fuel q options w) in
  now w0 + 3000 * (inject_Z (Z.of_nat (timers w'))
                   - inject_Z (Z.of_nat (timers w)))
  <= now w'.
Proof.
  intros Hc. cbv zeta. rewrite (ask_polls _ _ _ _ _ _ _ _ Hc).
  assert (Ht0 : timers w0 = timers w).
  { pose proof (createConfirmation_trace env this q w) as Htr.
    rewrite Hc in Htr. cbn [snd] in Htr.
    now rewrite (timers_app [create_event this q] w w0). }
  pose proof (poll_loop_duration (options_timeoutSeconds options) (now w0) id
                fuel w0) as H.
  cbv zeta in H. rewrite Ht0 in H. exact H.
Qed.

End Pace.

(** X7: without a deadline ([timeoutSeconds] undefined, null, [Infinity] or
    [NaN]), when the creation succeeds and every poll succeeds without an
    answer, [ask] never returns: however many turns it is given it is still
    running, having issued one poll request and armed one timer per turn. *)
Theorem ask_waits_forever (env : Env) (this : WaitHuman) (fuel : nat)
    (q : ConfirmationQuestion) (options : Nullable AskOptions) (id : Nullable string)
    (w w0 : World) :
  (options_timeoutSeconds options = undefined \/
   options_timeoutSeconds options = null \/
   options_timeoutSeconds options = value Infinity \/
   options_timeoutSeconds options = value NaN) ->
  createConfirmation env this q w = (Data id, w0) ->
  (forall w1, pending (fst (poll_call env this id w1))) ->
  fst (ask env this fuel q options w) = None /\
  polls (snd (ask env this fuel q options w)) = (polls w + fuel)%nat /\
  timers (snd (ask env this fuel q options w)) = (timers w + fuel)%nat.
Proof.
  intros HT Hc Hp.
  assert (Hnone : fst (ask env this fuel q options w) = None).
  { rewrite (ask_polls _ _ _ _ _ _ _ _ Hc). apply poll_loop_pending.
    - intros x. now destruct HT as [-> | [-> | [-> | ->]]].
    - exact Hp. }
  split; [exact Hnone|].
  assert (Hc' : fst (createConfirmation env this q w) = Data id)
    by (now rewrite Hc).
  destruct (ask_success_shape env this fuel q options w id Hc')
    as (n & _ & Hn & _ & Htr).
  rewrite (Hn Hnone), Hnone in Htr.
  destruct (loop_events_counts this id None fuel) as (Hg & Hti & _).
  split.
  - rewrite (polls_app (loop_events this id None fuel ++ [create_event this q])
               w _) by (now rewrite <- app_assoc).
    rewrite filter_app, List.length_app, Hg. cbn. lia.
  - rewrite (timers_app (loop_events this id None fuel ++ [create_event this q])
               w _) by (now rewrite <- app_assoc).
    rewrite filter_app, List.length_app, Hti. cbn. lia.
Qed.

(** ** From the creation to the first poll *)

Section FirstPoll.

Variable env : Env.
Variable this : WaitHuman.

Lemma first_turn_polls (start : Q) (id : Nullable string) (T : Nullable JsNumber)
    (w : World) :
  deadline_passed T (elapsed start w) = false ->
  exists evs,
    trace (snd (poll_turn env this start id T w))
    = (evs ++ poll_event this id :: trace w)%list.
Proof.
  intros Hd. rewrite poll_turn_run, Hd. cbv zeta.
  destruct (fst (poll_call env this id w)) as [|f]; [now exists []|].
  destruct (error f); [now exists []|].
  destruct (data f) as [[[a|]]|];
    try (now exists []); now exists [timer_event].
Qed.

(** X8: the identifier is passed on as it is.  When the creation response is
    a success with a body, whatever string its [confirmation_request_id] is
    (the empty one included), and the deadline is absent or not negative,
    the request that follows the POST is the poll for that identifier, with
    [long_poll: false] and the instance's key. *)
Theorem ask_first_poll (k : nat) (q : ConfirmationQuestion)
    (options : Nullable AskOptions) (f : Fetched CreateBody) (d : CreateBody)
    (w : World) :
  fst (create_call env this q w) = Resolves f ->
  error f = None ->
  data f = Some d ->
  options_timeoutSeconds options <> value NegInfinity ->
  (forall t, options_timeoutSeconds options = value (Num t) -> 0 <= t) ->
  exists evs,
    trace (snd (ask env this (S k) q options w))
    = (evs ++ poll_event this (confirmation_request_id d)
           :: create_event this q :: trace w)%list.
Proof.
  intros Hf He Hd Hneg Hpos.
  assert (Hc : createConfirmation env this q w
               = (Data (confirmation_request_id d),
                  snd (create_call env this q w))).
  { rewrite createConfirmation_run, Hf, He, Hd. reflexivity. }
  rewrite (ask_polls _ _ _ _ _ _ _ _ Hc), poll_loop_S.
  set (w0 := snd (create_call env this q w)).
  set (T := options_timeoutSeconds options) in *.
  assert (Hdl : deadline_passed T (elapsed (now w0) w0) = false).
  { destruct T as [| |[t| | |]]; try reflexivity.
    - apply deadline_passed_false. rewrite elapsed_ms.
      specialize (Hpos t eq_refl). lra.
    - congruence. }
  destruct (first_turn_polls (now w0) (confirmation_request_id d) T w0 Hdl)
    as [e1 H1].
  change (trace w0) with (create_event this q :: trace w) in H1.
  destruct (fst (poll_turn env this (now w0) (confirmation_request_id d) T w0)).
  - now exists e1.
  - destruct (poll_loop_extends env this k (now w0) (confirmation_request_id d)
                T (snd (poll_turn env this (now w0)
                          (confirmation_request_id d) T w0))) as [e2 H2].
    exists (e2 ++ e1)%list. now rewrite H2, H1, app_assoc.
Qed.

End FirstPoll.

(** ** More on the typed operations *)

Section TypedMore.

Variable env : Env.
Variable this : WaitHuman.

(** X9: [askMultipleChoice] returns a value exactly when the engine succeeds
    with an options answer whose first selected index is within the choices,
    and the value is the choice at that index.  So what it returns is always
    one of the choices, and with an empty list of choices it never returns
    a value. *)
Theorem askMultipleChoice_returns_iff (fuel : nat) (subject : string)
    (choices : list string) (body : Nullable string)
    (options : Nullable AskOptions) (w w' : World) (v : string) :
  let q := {| method := push; subject := subject; body := or_null body;
              answer_format := format_options choices false |} in
  (askMultipleChoice env this fuel subject choices body options w
   = (Some (Returned v), w')
   <-> exists d i rest,
         ask env this fuel q options w = (Some (Data d), w') /\
         answer_content (answer d) = content_options (i :: rest) /\
         (0 <= i < Z.of_nat (List.length choices))%Z /\
         nth_error choices (Z.to_nat i) = Some v) /\
  (askMultipleChoice env this fuel subject choices body options w
   = (Some (Returned v), w') -> In v choices) /\
  (choices = [] ->
   askMultipleChoice env this fuel subject choices body options w
   <> (Some (Returned v), w')).
Proof.
  intros q.
  assert (Hiff :
    askMultipleChoice env this fuel subject choices body options w
    = (Some (Returned v), w')
    <-> exists d i rest,
          ask env this fuel q options w = (Some (Data d), w') /\
          answer_content (answer d) = content_options (i :: rest) /\
          (0 <= i < Z.of_nat (List.length choices))%Z /\
          nth_error choices (Z.to_nat i) = Some v).
  { rewrite askMultipleChoice_run. fold q.
    destruct (ask env this fuel q options w) as [r w1]. cbn [fst snd]. split.
    - destruct r as [[d|e]|]; try discriminate.
      destruct (answer_content (answer d)) as [t|[|i rest]] eqn:Hc;
        try discriminate.
      cbn [nth_error]. cbv zeta.
      destruct ((i <? 0) || (Z.of_nat (List.length choices) <=? i))%Z eqn:Hb;
        [discriminate|].
      apply orb_false_iff in Hb. destruct Hb as [Hlo Hhi].
      apply Z.ltb_ge in Hlo. apply Z.leb_gt in Hhi.
      destruct (array_get_in_range choices i (conj Hlo Hhi)) as (c & Hg & Hn).
      rewrite Hg. intros E; inversion E; subst.
      exists d, i, rest. now repeat split.
    - intros (d & i & rest & E & Hc & Hi & Hn). inversion E; subst.
      rewrite Hc. cbn [nth_error]. cbv zeta.
      replace ((i <? 0) || (Z.of_nat (List.length choices) <=? i))%Z with false
        by (symmetry; apply orb_false_iff; split;
            [apply Z.ltb_ge | apply Z.leb_gt]; lia).
      destruct (array_get_in_range choices i Hi) as (c & Hg & Hn').
      rewrite Hg. congruence. }
  split; [exact Hiff|]. split.
  - intros H. apply Hiff in H. destruct H as (d & i & rest & _ & _ & _ & Hn).
    eapply nth_error_In; eassumption.
  - intros Hch H. apply Hiff in H.
    destruct H as (d & i & rest & _ & _ & Hi & _).
    rewrite Hch in Hi. cbn in Hi. lia.
Qed.

(** X10: [askMultipleChoice] throws when the engine returns an error, the
    message holding the reason and the description (nothing for a missing
    one, which leaves a trailing space); when the engine succeeds with a
    free-text answer it throws the error that reports the type received,
    whatever the text is. *)
Theorem askMultipleChoice_throws (fuel : nat) (subject : string)
    (choices : list string) (body : Nullable string)
    (options : Nullable AskOptions) (w w' : World) :
  let q := {| method := push; subject := subject; body := or_null body;
              answer_format := format_options choices false |} in
  (forall e,
     ask env this fuel q options w = (Some (Err e), w') ->
     askMultipleChoice env this fuel subject choices body options w
     = (Some (Thrown ("WaitHuman Error: " ++ reason_string (reason e) ++ " "
                      ++ match description e with
                         | Some text => text
                         | None => ""
                         end)), w')) /\
  (forall d text,
     ask env this fuel q options w = (Some (Data d), w') ->
     answer_content (answer d) = content_free_text text ->
     askMultipleChoice env this fuel subject choices body options w
     = (Some (Thrown "Unexpected answer type: free_text. Expected 'options'."),
        w')).
Proof.
  intros q. split.
  - intros e Ha. rewrite askMultipleChoice_run. fold q.
    now destruct (ask_result _ _ _ _ _ _ _ _ Ha) as [-> ->].
  - intros d text Ha Hc. rewrite askMultipleChoice_run. fold q.
    destruct (ask_result _ _ _ _ _ _ _ _ Ha) as [-> ->]. now rewrite Hc.
Qed.

(** X11: [askFreeText] issues the calls of one [ask] and none of its own: a
    single creation request, which carries the question with method push,
    the given subject, the body (null when none is given) and the free-text
    answer format, followed by the polls and timers of the loop. *)
Theorem askFreeText_calls (fuel : nat) (subject : string)
    (b : Nullable string) (options : Nullable AskOptions) (w : World) :
  let q := {| method := push; subject := subject; body := or_null b;
              answer_format := format_free_text |} in
  let w' := snd (askFreeText env this fuel subject b options w) in
  w' = snd (ask env this fuel q options w) /\
  (b = undefined \/ b = null -> body q = null) /\
  posts w' = S (posts w) /\
  exists evs,
    trace w' = (evs ++ create_event this q :: trace w)%list /\
    Forall (fun e => is_POST e = false) evs.
Proof.
  cbv zeta. rewrite askFreeText_run. cbn [snd body].
  set (q := {| method := push; subject := subject; body := or_null b;
               answer_format := format_free_text |}).
  assert (Hshape : exists evs,
    trace (snd (ask env this fuel q options w))
    = (evs ++ create_event this q :: trace w)%list /\
    Forall (fun e => is_POST e = false) evs).
  { destruct (fst (createConfirmation env this q w)) as [id|e] eqn:Hc.
    - destruct (ask_success_shape env this fuel q options w id Hc)
        as (n & _ & _ & _ & Htr).
      eexists. split; [exact Htr|].
      unfold loop_events. apply Forall_app. split.
      + destruct (polled_last _); repeat constructor.
      + clear. induction n; repeat constructor. exact IHn.
    - destruct (ask_failure_shape env this fuel q options w e Hc) as [_ Htr].
      exists []. split; [exact Htr | constructor]. }
  split; [reflexivity|]. split; [|split].
  - intros [-> | ->]; reflexivity.
  - destruct Hshape as (evs & Htr & Hall).
    rewrite (posts_app (evs ++ [create_event this q]) w _)
      by (now rewrite <- app_assoc).
    rewrite filter_app, List.length_app. cbn.
    replace (filter is_POST evs) with (@nil Event); [reflexivity|].
    symmetry. clear Htr. induction Hall as [|e l He _ IH]; [reflexivity|].
    cbn. now rewrite He.
  - exact Hshape.
Qed.

End TypedMore.

(** ** The constructor and the engine together *)

Lemma configured_rounds (config : WaitHumanConfig) (inst : WaitHuman)
    (id : Nullable string) (n : nat) :
  constructor config = Returned inst ->
  Forall (configured config) (rounds inst id n).
Proof.
  intros H. destruct (constructor_returns _ _ H) as [Hk Hb].
  induction n as [|n IH]; [constructor|].
  cbn [rounds]. constructor; [reflexivity|].
  constructor; [|exact IH]. cbn. now repeat split.
Qed.

(** X12: every call that [ask] issues on an instance built by the
    constructor is made through the client of the configured endpoint
    (default when missing, one trailing slash removed) and carries the
    configured key as it is in the [Authorization] header; the polls are
    sent with [long_poll: false] and every timer is armed for 3000 ms. *)
Theorem constructed_requests (env : Env) (config : WaitHumanConfig)
    (inst : WaitHuman) (fuel : nat) (q : ConfirmationQuestion)
    (options : Nullable AskOptions) (w : World) :
  constructor config = Returned inst ->
  exists evs,
    trace (snd (ask env inst fuel q options w)) = (evs ++ trace w)%list /\
    evs <> [] /\
    Forall (configured config) evs.
Proof.
  intros H. destruct (constructor_returns _ _ H) as [Hk Hb].
  assert (Hpost : configured config (create_event inst q))
    by (cbn; now split).
  destruct (fst (createConfirmation env inst q w)) as [id|e] eqn:Hc.
  - destruct (ask_success_shape env inst fuel q options w id Hc)
      as (n & _ & _ & _ & Htr).
    exists (loop_events inst id (fst (ask env inst fuel q options w)) n
            ++ [create_event inst q])%list.
    split; [now rewrite <- app_assoc|]. split.
    + intros E. apply app_eq_nil in E. destruct E as [_ E]. discriminate.
    + apply Forall_app. split; [|now constructor].
      unfold loop_events. apply Forall_app. split.
      * destruct (polled_last _); [|constructor].
        constructor; [|constructor]. cbn. now repeat split.
      * now apply configured_rounds.
  - destruct (ask_failure_shape env inst fuel q options w e Hc) as [_ Htr].
    exists [create_event inst q]. split; [exact Htr|]. split; [discriminate|].
    now constructor.
Qed.

(** ** Instances *)

Lemma ask_answered_witness :
  ask (scripted (created "c1") [answer_with (content_free_text "yes")] 10000)
    sample_this 1 sample_question
    (value {| timeoutSeconds := value (Num 1) |}) boot
  = (Some (Data {| answer := {| answer_content := content_free_text "yes" |};
                   date := "2025-01-01T00:00:00Z" |}),
     {| now := 0 + 10000 + 10000;
        trace := [poll_event sample_this (value "c1");
                  create_event sample_this sample_question] |}) /\
  1 < elapsed (0 + 10000) {| now := 0 + 10000 + 10000; trace := [] |}.
Proof.
  split.
  - refine (ask_answered
              (scripted (created "c1")
                 [answer_with (content_free_text "yes")] 10000)
              sample_this 0 0 sample_question
              (value {| timeoutSeconds := value (Num 1) |}) (value "c1") _ boot _ _
              eq_refl eq_refl eq_refl _).
    eexists. split; [reflexivity|]. split; reflexivity.
  - reflexivity.
Defined.

Lemma ask_trace_witness :
  exists n,
    (n <= 5)%nat /\
    trace (snd (ask (scripted (created "c1") [not_yet; Rejects] 0) sample_this
                  5 sample_question undefined boot))
    = (loop_events sample_this (value "c1")
         (Some (Err {| reason := network_error; description := None |})) n
       ++ [create_event sample_this sample_question])%list.
Proof.
  destruct (ask_trace (scripted (created "c1") [not_yet; Rejects] 0)
              sample_this 5 sample_question undefined boot)
    as (n & Hle & _ & _ & Htr).
  exists n. split; [exact Hle | exact Htr].
Defined.

Lemma ask_counts_witness :
  posts (snd (ask (scripted (created "c1") [not_yet; Rejects] 0) sample_this
                5 sample_question undefined
                (snd (ask (scripted (created "c1") [not_yet; Rejects] 0)
                        sample_this 5 sample_question undefined boot))))
  = 2%nat.
Proof.
  exact (proj1 (ask_counts (scripted (created "c1") [not_yet; Rejects] 0)
                  sample_this 5 sample_question undefined
                  (snd (ask (scripted (created "c1") [not_yet; Rejects] 0)
                          sample_this 5 sample_question undefined boot)))).
Defined.

Lemma ask_negative_deadline_witness :
  (exists e,
     poll_loop
       (scripted (created "c1") [answer_with (content_free_text "yes")] 0)
       sample_this 3 100 (value "c1")
       (options_timeoutSeconds (value {| timeoutSeconds := value (Num (-1)) |}))
       {| now := 250; trace := [] |}
     = (Some (Err e), {| now := 250; trace := [] |}) /\
     reason e = timeout) /\
  exists e,
    ask (scripted (created "c1") [answer_with (content_free_text "yes")] 0)
      sample_this 3 sample_question
      (value {| timeoutSeconds := value (Num (-1)) |}) boot
    = (Some (Err e),
       {| now := 0 + 0;
          trace := [create_event sample_this sample_question] |}) /\
    reason e = timeout.
Proof.
  assert (HT : options_timeoutSeconds
                 (value {| timeoutSeconds := value (Num (-1)) |})
               = value NegInfinity \/
               exists T, options_timeoutSeconds
                           (value {| timeoutSeconds := value (Num (-1)) |})
                         = value (Num T) /\ T < 0).
  { right. exists (-1). split; reflexivity. }
  split.
  - refine (proj1 (ask_negative_deadline
                     (scripted (created "c1")
                        [answer_with (content_free_text "yes")] 0)
                     sample_this 2 sample_question
                     (value {| timeoutSeconds := value (Num (-1)) |})
                     (value "c1") boot boot HT)
              100 {| now := 250; trace := [] |} _).
    discriminate.
  - destruct (proj2 (ask_negative_deadline
                       (scripted (created "c1")
                          [answer_with (content_free_text "yes")] 0)
                       sample_this 2 sample_question
                       (value {| timeoutSeconds := value (Num (-1)) |})
                       (value "c1") boot _ HT) eq_refl)
      as (e & Ha & Hr & _).
    exists e. split; [exact Ha | exact Hr].
Defined.

Lemma polls_bounded_by_deadline_witness :
  polls (snd (ask (scripted (created "c1") [] 0) sample_this 10
                sample_question (value {| timeoutSeconds := value (Num 4) |})
                boot))
  = polls boot \/
  3 * (inject_Z (Z.of_nat
         (polls (snd (ask (scripted (created "c1") [] 0) sample_this 10
                        sample_question
                        (value {| timeoutSeconds := value (Num 4) |}) boot))))
       - inject_Z (Z.of_nat (polls boot)))
  <= 4 + 3.
Proof.
  refine (polls_bounded_by_deadline (scripted (created "c1") [] 0) sample_this
            _ _ 10 sample_question
            (value {| timeoutSeconds := value (Num 4) |}) (value "c1") 4 boot _
            eq_refl eq_refl);
    intros w; apply Qle_refl.
Defined.

Lemma ask_duration_witness :
  0 + 0 + 3000 * (inject_Z (Z.of_nat
                    (timers (snd (ask (scripted (created "c1") [] 0)
                                    sample_this 4 sample_question undefined
                                    boot))))
                  - inject_Z (Z.of_nat (timers boot)))
  <= now (snd (ask (scripted (created "c1") [] 0) sample_this 4 sample_question
                 undefined boot)).
Proof.
  refine (ask_duration (scripted (created "c1") [] 0) sample_this _ _ 4
            sample_question undefined (value "c1") boot _ eq_refl);
    intros w; apply Qle_refl.
Defined.

Lemma ask_waits_forever_witness :
  fst (ask (scripted (created "c1") [] 0) sample_this 7 sample_question
         undefined boot) = None /\
  polls (snd (ask (scripted (created "c1") [] 0) sample_this 7 sample_question
                undefined boot)) = (polls boot + 7)%nat.
Proof.
  destruct (ask_waits_forever (scripted (created "c1") [] 0) sample_this 7
              sample_question undefined (value "c1") boot _ (or_introl eq_refl)
              eq_refl (scripted_pending _ _ _ _)) as (Hn & Hp & _).
  split; [exact Hn | exact Hp].
Defined.

Lemma ask_first_poll_witness :
  exists evs,
    trace (snd (ask (scripted (created "") [] 0) sample_this 2 sample_question
                  (value {| timeoutSeconds := value (Num 0) |}) boot))
    = (evs ++ [poll_event sample_this (value "");
               create_event sample_this sample_question])%list.
Proof.
  refine (ask_first_poll (scripted (created "") [] 0) sample_this 1
            sample_question (value {| timeoutSeconds := value (Num 0) |})
            _ {| confirmation_request_id := value "" |} boot
            eq_refl eq_refl eq_refl _ _).
  - discriminate.
  - intros t E. inversion E. apply Qle_refl.
Defined.

Lemma askMultipleChoice_returns_iff_witness :
  In "c" ["a"; "b"; "c"].
Proof.
  refine (proj1 (proj2 (askMultipleChoice_returns_iff
                          (scripted (created "c1")
                             [answer_with (content_options [2; 0]%Z)] 0)
                          sample_this 1 "Pick one" ["a"; "b"; "c"] undefined
                          undefined boot _ "c")) eq_refl).
Defined.

Lemma askMultipleChoice_throws_witness :
  fst (askMultipleChoice (scripted (created "c1") [Rejects] 0) sample_this 1
         "Pick one" ["a"; "b"] undefined undefined boot)
  = Some (Thrown "WaitHuman Error: network_error ") /\
  fst (askMultipleChoice
         (scripted (created "c1") [answer_with (content_free_text "a")] 0)
         sample_this 1 "Pick one" ["a"; "b"] undefined undefined boot)
  = Some (Thrown "Unexpected answer type: free_text. Expected 'options'.").
Proof.
  split.
  - refine (f_equal fst
              (proj1 (askMultipleChoice_throws
                        (scripted (created "c1") [Rejects] 0) sample_this 1
                        "Pick one" ["a"; "b"] undefined undefined boot _)
                 _ eq_refl)).
  - refine (f_equal fst
              (proj2 (askMultipleChoice_throws
                        (scripted (created "c1")
                           [answer_with (content_free_text "a")] 0)
                        sample_this 1 "Pick one" ["a"; "b"] undefined
                        undefined boot _)
                 _ _ eq_refl eq_refl)).
Defined.

Lemma askFreeText_calls_witness :
  body {| method := push; subject := "Why?"; body := or_null undefined;
          answer_format := format_free_text |} = null /\
  posts (snd (askFreeText (scripted (created "c1") [] 0) sample_this 3 "Why?"
                undefined undefined boot)) = 1%nat.
Proof.
  split.
  - refine (proj1 (proj2 (askFreeText_calls (scripted (created "c1") [] 0)
                            sample_this 3 "Why?" undefined undefined boot))
              (or_introl eq_refl)).
  - exact (proj1 (proj2 (proj2 (askFreeText_calls
                                  (scripted (created "c1") [] 0) sample_this 3
                                  "Why?" undefined undefined boot)))).
Defined.

Lemma constructed_requests_witness :
  exists evs,
    trace (snd (ask (scripted (created "c1") [] 0)
                  {| this_apiKey := "k";
                     this_client := createApiClient "http://h" |}
                  2 sample_question undefined boot))
    = (evs ++ [])%list /\
    evs <> [] /\
    Forall (configured {| apiKey := value "k"; endpoint := value "http://h/" |})
      evs.
Proof.
  exact (constructed_requests (scripted (created "c1") [] 0)
           {| apiKey := value "k"; endpoint := value "http://h/" |}
           {| this_apiKey := "k"; this_client := createApiClient "http://h" |}
           2 sample_question undefined boot eq_refl).
Defined.

(** ** Every result has its cause *)

Section Causes.

Variable env : Env.
Variable this : WaitHuman.

(** A result of the loop is the result of its last turn. *)
Lemma poll_loop_last_turn (fuel : nat) (start : Q) (id : Nullable string)
    (T : Nullable JsNumber) (w0 w' : World) (res : Result ConfirmationAnswer) :
  poll_loop env this fuel start id T w0 = (Some res, w') ->
  exists w, poll_turn env this start id T w = (Some res, w').
Proof.
  revert w0; induction fuel as [|fuel IH]; intros w0; [discriminate|].
  rewrite poll_loop_S.
  destruct (poll_turn env this start id T w0) as [[r|] w1] eqn:Ht;
    cbn [fst snd].
  - intros E; inversion E; subst. now exists w0.
  - apply IH.
Qed.

Lemma deadline_passed_cause (T : Nullable JsNumber) (x : Q) :
  deadline_passed T x = true ->
  T = value NegInfinity \/ exists t, T = value (Num t) /\ t < x.
Proof.
  destruct T as [| |[t| | |]]; try discriminate.
  - intros H. right. exists t. split; [reflexivity | now apply Qgtb_true].
  - now left.
Qed.

(** X13: [ask] never reports a timeout that did not happen.  When it returns
    the timeout error, a deadline was given, the time elapsed since the
    creation returned exceeds it strictly at the moment of the return, and
    the description is that elapsed time. *)
Theorem timeout_has_passed (fuel : nat) (q : ConfirmationQuestion)
    (options : Nullable AskOptions) (id : Nullable string) (w w0 w' : World)
    (e : WaitHumanError) :
  createConfirmation env this q w = (Data id, w0) ->
  ask env this fuel q options w = (Some (Err e), w') ->
  reason e = timeout ->
  (options_timeoutSeconds options = value NegInfinity \/
   exists t, options_timeoutSeconds options = value (Num t) /\
             t < elapsed (now w0) w') /\
  description e
  = Some ("elapsed seconds: " ++ toString env (elapsed (now w0) w')).
Proof.
  intros Hc Ha Hr. rewrite (ask_polls _ _ _ _ _ _ _ _ Hc) in Ha.
  destruct (poll_loop_last_turn _ _ _ _ _ _ _ Ha) as [w1 Ht].
  rewrite poll_turn_run in Ht.
  destruct (deadline_passed (options_timeoutSeconds options)
              (elapsed (now w0) w1)) eqn:Hd.
  - inversion Ht; subst. split; [now apply deadline_passed_cause | reflexivity].
  - exfalso. cbv zeta in Ht.
    destruct (fst (poll_call env this id w1)) as [|f].
    + inversion Ht; subst. discriminate.
    + destruct (error f).
      * inversion Ht; subst. discriminate.
      * destruct (data f) as [[[a|]]|]; discriminate.
Qed.

(** X14: what [ask] returns after a successful creation, other than the
    timeout error, is what the last poll call gave, and the world is the one
    that call left: an answer is the [maybe_answer] of a response without
    error, [poll_failed] carries the status text of a response with an
    error, and [network_error] (without description) stands for a rejected
    call. *)
Theorem result_from_last_poll (fuel : nat) (q : ConfirmationQuestion)
    (options : Nullable AskOptions) (id : Nullable string) (w w0 w' : World)
    (res : Result ConfirmationAnswer) :
  createConfirmation env this q w = (Data id, w0) ->
  ask env this fuel q options w = (Some res, w') ->
  (forall e, res = Err e -> reason e <> timeout) ->
  exists w1,
    w' = snd (poll_call env this id w1) /\
    match res with
    | Data a => answered (fst (poll_call env this id w1)) a
    | Err e =>
        (fst (poll_call env this id w1) = Rejects /\
         e = {| reason := network_error; description := None |}) \/
        (exists f, fst (poll_call env this id w1) = Resolves f /\
                   error f <> None /\
                   e = {| reason := poll_failed;
                          description := Some (statusText (response f)) |})
    end.
Proof.
  intros Hc Ha Hnt. rewrite (ask_polls _ _ _ _ _ _ _ _ Hc) in Ha.
  destruct (poll_loop_last_turn _ _ _ _ _ _ _ Ha) as [w1 Ht].
  rewrite poll_turn_run in Ht. exists w1.
  destruct (deadline_passed (options_timeoutSeconds options)
              (elapsed (now w0) w1)).
  - inversion Ht; subst. exfalso. now apply (Hnt _ eq_refl).
  - cbv zeta in Ht.
    destruct (fst (poll_call env this id w1)) as [|f] eqn:Hf.
    + inversion Ht; subst. split; [reflexivity|]. left. now split.
    + destruct (error f) as [b|] eqn:He.
      * inversion Ht; subst. split; [reflexivity|]. right.
        exists f. repeat split. congruence.
      * destruct (data f) as [[[a|]]|] eqn:Hd; try discriminate.
        inversion Ht; subst. split; [reflexivity|]. now exists f.
Qed.

End Causes.

Lemma timeout_has_passed_witness :
  (value (Num 4) = value NegInfinity \/
   exists t, value (Num 4) = value (Num t) /\
             t < elapsed (0 + 0)
                   (snd (ask (scripted (created "c1") [] 0) sample_this 5
                           sample_question
                           (value {| timeoutSeconds := value (Num 4) |})
                           boot))) /\
  description {| reason := timeout; description := Some "elapsed seconds: 6" |}
  = Some ("elapsed seconds: "
          ++ print_integral
               (elapsed (0 + 0)
                  (snd (ask (scripted (created "c1") [] 0) sample_this 5
                          sample_question
                          (value {| timeoutSeconds := value (Num 4) |})
                          boot)))).
Proof.
  exact (timeout_has_passed (scripted (created "c1") [] 0) sample_this 5
           sample_question (value {| timeoutSeconds := value (Num 4) |}) (value "c1")
           boot _ _ _ eq_refl eq_refl eq_refl).
Defined.

Lemma result_from_last_poll_witness :
  exists w1,
    snd (ask (scripted (created "c1") [not_yet; failure "gone" "Not Found"] 0)
           sample_this 5 sample_question undefined boot)
    = snd (poll_call
             (scripted (created "c1") [not_yet; failure "gone" "Not Found"] 0)
             sample_this (value "c1") w1).
Proof.
  destruct (result_from_last_poll
              (scripted (created "c1") [not_yet; failure "gone" "Not Found"] 0)
              sample_this 5 sample_question undefined (value "c1") boot _ _
              (Err {| reason := poll_failed;
                      description := Some "Not Found" |})
              eq_refl eq_refl) as (w1 & Hw & _).
  - intros e E. inversion E. discriminate.
  - now exists w1.
Defined.
